(** * Autonomous AI Project Manager backend: a shallow embedding of
    [backend/server.py] and the properties of its request handlers.

    The service keeps two MongoDB collections, [project_requirements] and
    [project_plans], and talks to one external text-generation model.  The
    embedding follows the handlers of [server.py] line by line:

    - Python values (the results of [json.loads], pydantic's [.dict()] and the
      documents of the store) are the constructors of [value]; a Python [dict]
      is a [gmap string value];
    - a Python [str] is a [string] whose characters stand for the code points
      below 256;
    - exceptions are the constructors of [exn]; a handler is a function from
      the state of the world to a [result] and the next state of the world;
    - what the process reads from its environment during one request (the
      API key, the random bits of [uuid.uuid4], the clock, the ObjectId drawn
      by the driver, the answer of the model) is a record [env];
    - the libraries the handlers call but which are not part of the
      repository ([json.loads], pydantic's scalar validators, [str] of an
      exception) are the fields of the class [Externals].

    The store is taken as the handlers see it when it is up: [insert_one],
    [find_one] and [find().to_list] answer every call, and a document comes
    back as it was inserted, its [datetime] values cut to the millisecond. *)

From Stdlib Require Import String Ascii ZArith NArith List Lia Bool.
From Stdlib Require Import Floats.SpecFloat.
From stdpp Require Import gmap strings list fin_maps.

Set Warnings "-register-all".
Local Open Scope string_scope.
Local Open Scope Z_scope.

(** ** Python strings *)

Module PyStr.

(** [str.isspace] on the code points below 256: TAB, LF, VT, FF, CR, the
  four separators FS, GS, RS, US, SPACE, NEL and NBSP. *)
Definition isspace (c : ascii) : bool :=
match nat_of_ascii c with
| 9%nat | 10%nat | 11%nat | 12%nat | 13%nat
| 28%nat | 29%nat | 30%nat | 31%nat | 32%nat
| 133%nat | 160%nat => true
| _ => false
end.

Definition is_empty (s : string) : bool :=
match s with EmptyString => true | String _ _ => false end.

Fixpoint lstrip (s : string) : string :=
match s with
| EmptyString => EmptyString
| String c s' => if isspace c then lstrip s' else s
end.

Fixpoint rstrip (s : string) : string :=
match s with
| EmptyString => EmptyString
| String c s' =>
    let r := rstrip s' in
    if isspace c && is_empty r then EmptyString else String c r
end.

(** [s.strip()] *)
Definition strip (s : string) : string := rstrip (lstrip s).

(** [s.startswith(p)] *)
Definition startswith (s p : string) : bool := String.prefix p s.

(** The bound of a slice: a negative index counts from the end, and every
  index is clipped to [0 .. len]. *)
Definition slice_index (len i : Z) : Z :=
if i <? 0 then Z.max (i + len) 0 else Z.min i len.

(** [s[start:stop]] *)
Definition slice (s : string) (start stop : Z) : string :=
let n := Z.of_nat (String.length s) in
let a := slice_index n start in
let b := slice_index n stop in
substring (Z.to_nat a) (Z.to_nat (b - a)) s.

(** Every character of [s] satisfies [p]. *)
Fixpoint all_chars (p : ascii -> bool) (s : string) : bool :=
match s with
| EmptyString => true
| String c s' => p c && all_chars p s'
end.

(** Removing the first [n] and the last [n] characters, as the words
  "dropped" and "removed" read; used to state what a slice leaves. *)
Definition drop_first (n : nat) (s : string) : string :=
string_of_list_ascii (drop n (list_ascii_of_string s)).

Definition drop_last (n : nat) (s : string) : string :=
string_of_list_ascii (rev (drop n (rev (list_ascii_of_string s)))).

(** [t in s] *)
Definition contains (s t : string) : Prop :=
exists a b : string, s = a ++ t ++ b.

End PyStr.

(** The quotation mark and the line feed, which the templates below need. *)
Definition dq : string := String (ascii_of_nat 34) EmptyString.
Definition nl : string := String (ascii_of_nat 10) EmptyString.
Definition quoted (s : string) : string := dq ++ s ++ dq.

(** ** Python values, exceptions and the libraries outside the repository *)

(** The values the handlers pass around.  [json.loads] produces the first
    five kinds and the two containers; a document read from the store may
    also hold a [datetime] and the [ObjectId] of its [_id] field. *)
Inductive value :=
| VNone
| VBool (b : bool)
| VInt (z : Z)
| VFloat (f : spec_float)
| VStr (s : string)
| VDatetime (t : Z)
| VObjectId (o : N)
| VList (l : list value)
| VDict (d : gmap string value).

(** A MongoDB document; also the keyword arguments of a model called with
    the items of a dict. *)
Abbreviation document := (gmap string value).

Inductive exn :=
| HTTPException (status_code : Z) (detail : string)
| JSONDecodeError
| KeyError (key : string)
| TypeError
| ValidationError
| ModelCallError (msg : string).

Inductive result (A : Type) :=
| Return (a : A)
| Raise (e : exn).
Arguments Return {A} a.
Arguments Raise {A} e.

#[global] Instance result_ret : MRet result := fun A a => Return a.
#[global] Instance result_bind : MBind result := fun A B f m =>
  match m with
  | Return a => f a
  | Raise e => Raise e
  end.
#[global] Instance result_fmap : FMap result := fun A B f m =>
  match m with
  | Return a => Return (f a)
  | Raise e => Raise e
  end.

(** A list comprehension [[f(x) for x in l]]: the first exception ends it. *)
Fixpoint comprehension {A B : Type} (f : A -> result B) (l : list A)
  : result (list B) :=
  match l with
  | [] => Return []
  | x :: l' => y ← f x; ys ← comprehension f l'; Return (y :: ys)
  end.

(** The status FastAPI answers with: an [HTTPException] carries its own, any
    other exception that leaves a handler is a 500. *)
Definition status_code_of {A : Type} (r : result A) : Z :=
  match r with
  | Return _ => 200
  | Raise (HTTPException s _) => s
  | Raise _ => 500
  end.

(** The library functions the handlers call.  [json_loads] answers [None]
    where [json.loads] raises [JSONDecodeError]; a validator answers [None]
    where pydantic rejects the value for a field of that type. *)
Class Externals := {
  json_loads : string -> option value;
  str_validator : value -> option string;
  int_validator : value -> option Z;
  float_validator : value -> option spec_float;
  datetime_validator : value -> option Z;
  str_of_exn : exn -> string
}.

(** JSON's insignificant whitespace: space, TAB, LF, CR. *)
Definition json_ws (c : ascii) : bool :=
  match nat_of_ascii c with
  | 32%nat | 9%nat | 10%nat | 13%nat => true
  | _ => false
  end.

(** [json.loads] skips whitespace around the value it parses. *)
Class JsonWhitespace (X : Externals) : Prop :=
  json_loads_ws : forall w1 w2 s : string,
    PyStr.all_chars json_ws w1 = true ->
    PyStr.all_chars json_ws w2 = true ->
    json_loads (w1 ++ s ++ w2) = json_loads s.

(** pydantic returns a value that already has the type of the field. *)
Class ValidatorsKeepOwnType (X : Externals) : Prop := {
  str_validator_str : forall s : string, str_validator (VStr s) = Some s;
  datetime_validator_datetime :
    forall t : Z, datetime_validator (VDatetime t) = Some t
}.

(** ** pydantic models *)

Section Fields.

Context {X : Externals}.

(** A required field of a model called with keyword arguments. *)
Definition required {A : Type} (validator : value -> option A)
    (kwargs : document) (name : string) : result A :=
  match kwargs !! name with
  | None => Raise ValidationError
  | Some v =>
      match validator v with
      | Some a => Return a
      | None => Raise ValidationError
      end
  end.

(** A field [Optional[T] = None]. *)
Definition optional {A : Type} (validator : value -> option A)
    (kwargs : document) (name : string) : result (option A) :=
  match kwargs !! name with
  | None | Some VNone => Return None
  | Some v =>
      match validator v with
      | Some a => Return (Some a)
      | None => Raise ValidationError
      end
  end.

(** A field with a default or a [default_factory]. *)
Definition defaulted {A : Type} (validator : value -> option A)
    (kwargs : document) (name : string) (default : A) : result A :=
  match kwargs !! name with
  | None => Return default
  | Some v =>
      match validator v with
      | Some a => Return a
      | None => Raise ValidationError
      end
  end.

(** The validator of a field [List[T]]. *)
Definition list_validator {A : Type} (validator : value -> option A)
    (v : value) : option (list A) :=
  match v with
  | VList l => mapM validator l
  | _ => None
  end.

(** Unpacking [obj] into keyword arguments: the argument after [**] must
    be a mapping. *)
Definition keywords (obj : value) : result document :=
  match obj with
  | VDict d => Return d
  | _ => Raise TypeError
  end.

(** [plan_data[key]] *)
Definition subscript (obj : value) (key : string) : result value :=
  match obj with
  | VDict d =>
      match d !! key with
      | Some v => Return v
      | None => Raise (KeyError key)
      end
  | _ => Raise TypeError
  end.

(** [for x in v]: a list gives its items, a dict its keys, a string its
    characters; the other values are not iterable. *)
Definition iterate (v : value) : result (list value) :=
  match v with
  | VList l => Return l
  | VDict d => Return (VStr <$> (map_to_list d).*1)
  | VStr s =>
      Return ((fun c => VStr (String c EmptyString)) <$> list_ascii_of_string s)
  | _ => Raise TypeError
  end.

Definition of_option_str (o : option string) : value :=
  match o with Some s => VStr s | None => VNone end.

Definition of_option_float (o : option spec_float) : value :=
  match o with Some f => VFloat f | None => VNone end.

End Fields.

Module ProjectRequirements.
Record t := {
  id : string;
  title : string;
  description : string;
  business_context : string;
  success_criteria : string;
  constraints : string;
  stakeholders : string;
  timeline_preference : string;
  budget_range : option string;
  created_at : Z
}.

(** The constructor called with keyword arguments; [new_id] and [now] are
    what the two default factories would give. *)
Definition make {X : Externals} (new_id : string) (now : Z)
    (kwargs : document) : result t :=
  id ← defaulted str_validator kwargs "id" new_id;
  title ← required str_validator kwargs "title";
  description ← required str_validator kwargs "description";
  business_context ← required str_validator kwargs "business_context";
  success_criteria ← required str_validator kwargs "success_criteria";
  constraints ← required str_validator kwargs "constraints";
  stakeholders ← required str_validator kwargs "stakeholders";
  timeline_preference ← required str_validator kwargs "timeline_preference";
  budget_range ← optional str_validator kwargs "budget_range";
  created_at ← defaulted datetime_validator kwargs "created_at" now;
  Return {| id := id; title := title; description := description;
            business_context := business_context;
            success_criteria := success_criteria;
            constraints := constraints; stakeholders := stakeholders;
            timeline_preference := timeline_preference;
            budget_range := budget_range; created_at := created_at |}.

(** [.dict()] *)
Definition dict (r : t) : document :=
  <["id" := VStr (id r)]>
  (<["title" := VStr (title r)]>
  (<["description" := VStr (description r)]>
  (<["business_context" := VStr (business_context r)]>
  (<["success_criteria" := VStr (success_criteria r)]>
  (<["constraints" := VStr (constraints r)]>
  (<["stakeholders" := VStr (stakeholders r)]>
  (<["timeline_preference" := VStr (timeline_preference r)]>
  (<["budget_range" := of_option_str (budget_range r)]>
  (<["created_at" := VDatetime (created_at r)]> ∅))))))))).
End ProjectRequirements.

Module ProjectRequirementsCreate.
Record t := {
  title : string;
  description : string;
  business_context : string;
  success_criteria : string;
  constraints : string;
  stakeholders : string;
  timeline_preference : string;
  budget_range : option string
}.

Definition dict (r : t) : document :=
  <["title" := VStr (title r)]>
  (<["description" := VStr (description r)]>
  (<["business_context" := VStr (business_context r)]>
  (<["success_criteria" := VStr (success_criteria r)]>
  (<["constraints" := VStr (constraints r)]>
  (<["stakeholders" := VStr (stakeholders r)]>
  (<["timeline_preference" := VStr (timeline_preference r)]>
  (<["budget_range" := of_option_str (budget_range r)]> ∅))))))).
End ProjectRequirementsCreate.

Module ProjectObjective.
Record t := {
  objective : string;
  specific : string;
  measurable : string;
  achievable : string;
  relevant : string;
  time_bound : string
}.

Definition make {X : Externals} (kwargs : document) : result t :=
  objective ← required str_validator kwargs "objective";
  specific ← required str_validator kwargs "specific";
  measurable ← required str_validator kwargs "measurable";
  achievable ← required str_validator kwargs "achievable";
  relevant ← required str_validator kwargs "relevant";
  time_bound ← required str_validator kwargs "time_bound";
  Return {| objective := objective; specific := specific;
            measurable := measurable; achievable := achievable;
            relevant := relevant; time_bound := time_bound |}.

Definition dict (r : t) : document :=
  <["objective" := VStr (objective r)]>
  (<["specific" := VStr (specific r)]>
  (<["measurable" := VStr (measurable r)]>
  (<["achievable" := VStr (achievable r)]>
  (<["relevant" := VStr (relevant r)]>
  (<["time_bound" := VStr (time_bound r)]> ∅))))).
End ProjectObjective.

Module WBSTask.
Record t := {
  id : string;
  name : string;
  description : string;
  level : Z;
  parent_id : option string;
  estimated_hours : Z;
  dependencies : list string;
  assigned_role : string;
  priority : string
}.

Definition make {X : Externals} (kwargs : document) : result t :=
  id ← required str_validator kwargs "id";
  name ← required str_validator kwargs "name";
  description ← required str_validator kwargs "description";
  level ← required int_validator kwargs "level";
  parent_id ← optional str_validator kwargs "parent_id";
  estimated_hours ← required int_validator kwargs "estimated_hours";
  dependencies ←
    defaulted (list_validator str_validator) kwargs "dependencies" [];
  assigned_role ← required str_validator kwargs "assigned_role";
  priority ← required str_validator kwargs "priority";
  Return {| id := id; name := name; description := description;
            level := level; parent_id := parent_id;
            estimated_hours := estimated_hours;
            dependencies := dependencies;
            assigned_role := assigned_role; priority := priority |}.

Definition dict (r : t) : document :=
  <["id" := VStr (id r)]>
  (<["name" := VStr (name r)]>
  (<["description" := VStr (description r)]>
  (<["level" := VInt (level r)]>
  (<["parent_id" := of_option_str (parent_id r)]>
  (<["estimated_hours" := VInt (estimated_hours r)]>
  (<["dependencies" := VList (VStr <$> dependencies r)]>
  (<["assigned_role" := VStr (assigned_role r)]>
  (<["priority" := VStr (priority r)]> ∅)))))))).
End WBSTask.

Module ResourceEstimate.
Record t := {
  role : string;
  hours_required : Z;
  skill_level : string;
  cost_estimate : option spec_float
}.

Definition make {X : Externals} (kwargs : document) : result t :=
  role ← required str_validator kwargs "role";
  hours_required ← required int_validator kwargs "hours_required";
  skill_level ← required str_validator kwargs "skill_level";
  cost_estimate ← optional float_validator kwargs "cost_estimate";
  Return {| role := role; hours_required := hours_required;
            skill_level := skill_level; cost_estimate := cost_estimate |}.

Definition dict (r : t) : document :=
  <["role" := VStr (role r)]>
  (<["hours_required" := VInt (hours_required r)]>
  (<["skill_level" := VStr (skill_level r)]>
  (<["cost_estimate" := of_option_float (cost_estimate r)]> ∅))).
End ResourceEstimate.

Module RiskItem.
Record t := {
  risk : string;
  probability : string;
  impact : string;
  mitigation_strategy : string;
  owner : string
}.

Definition make {X : Externals} (kwargs : document) : result t :=
  risk ← required str_validator kwargs "risk";
  probability ← required str_validator kwargs "probability";
  impact ← required str_validator kwargs "impact";
  mitigation_strategy ← required str_validator kwargs "mitigation_strategy";
  owner ← required str_validator kwargs "owner";
  Return {| risk := risk; probability := probability; impact := impact;
            mitigation_strategy := mitigation_strategy; owner := owner |}.

Definition dict (r : t) : document :=
  <["risk" := VStr (risk r)]>
  (<["probability" := VStr (probability r)]>
  (<["impact" := VStr (impact r)]>
  (<["mitigation_strategy" := VStr (mitigation_strategy r)]>
  (<["owner" := VStr (owner r)]> ∅)))).
End RiskItem.

Definition validate {A : Type} (validator : value -> option A) (v : value)
  : result A :=
  match validator v with
  | Some a => Return a
  | None => Raise ValidationError
  end.

Module ProjectPlan.
Record t := {
  id : string;
  project_requirements_id : string;
  objectives : list ProjectObjective.t;
  wbs_tasks : list WBSTask.t;
  timeline_weeks : Z;
  resource_estimates : list ResourceEstimate.t;
  risk_analysis : list RiskItem.t;
  success_metrics : list string;
  next_steps : list string;
  confidence_score : spec_float;
  created_at : Z
}.

(** The constructor as [generate_plan] calls it: the four lists of nested
    models are given as model instances, the other fields as the values
    read from the reply; [id] and [created_at] come from the default
    factories. *)
Definition make {X : Externals} (new_id : string) (now : Z)
    (project_requirements_id : value)
    (objectives : list ProjectObjective.t) (wbs_tasks : list WBSTask.t)
    (timeline_weeks : value)
    (resource_estimates : list ResourceEstimate.t)
    (risk_analysis : list RiskItem.t)
    (success_metrics next_steps confidence_score : value) : result t :=
  project_requirements_id ← validate str_validator project_requirements_id;
  timeline_weeks ← validate int_validator timeline_weeks;
  success_metrics ← validate (list_validator str_validator) success_metrics;
  next_steps ← validate (list_validator str_validator) next_steps;
  confidence_score ← validate float_validator confidence_score;
  Return {| id := new_id;
            project_requirements_id := project_requirements_id;
            objectives := objectives; wbs_tasks := wbs_tasks;
            timeline_weeks := timeline_weeks;
            resource_estimates := resource_estimates;
            risk_analysis := risk_analysis;
            success_metrics := success_metrics; next_steps := next_steps;
            confidence_score := confidence_score; created_at := now |}.

Definition dict (r : t) : document :=
  <["id" := VStr (id r)]>
  (<["project_requirements_id" := VStr (project_requirements_id r)]>
  (<["objectives" :=
       VList ((fun o => VDict (ProjectObjective.dict o)) <$> objectives r)]>
  (<["wbs_tasks" :=
       VList ((fun k => VDict (WBSTask.dict k)) <$> wbs_tasks r)]>
  (<["timeline_weeks" := VInt (timeline_weeks r)]>
  (<["resource_estimates" :=
       VList ((fun e => VDict (ResourceEstimate.dict e))
                <$> resource_estimates r)]>
  (<["risk_analysis" :=
       VList ((fun k => VDict (RiskItem.dict k)) <$> risk_analysis r)]>
  (<["success_metrics" := VList (VStr <$> success_metrics r)]>
  (<["next_steps" := VList (VStr <$> next_steps r)]>
  (<["confidence_score" := VFloat (confidence_score r)]>
  (<["created_at" := VDatetime (created_at r)]> ∅)))))))))).
End ProjectPlan.

(** ** Identifiers *)

Module UUID.

(** [uuid.uuid4()]: sixteen random bytes read as an integer, with the
    variant and the version written over six of its bits. *)
Definition uuid4 (urandom : N) : N :=
  let int := N.land urandom (N.ones 128) in
  let int := N.ldiff int (N.shiftl 0xc000 48) in
  let int := N.lor int (N.shiftl 0x8000 48) in
  let int := N.ldiff int (N.shiftl 0xf000 64) in
  N.lor int (N.shiftl 4 76).

Definition hex_digit (n : N) : ascii :=
  nth (N.to_nat n) (list_ascii_of_string "0123456789abcdef") "0"%char.

(** The [count] hexadecimal digits of [u] that end at digit [from],
    the most significant first. *)
Fixpoint hex_run (u : N) (from count : nat) : string :=
  match count with
  | O => EmptyString
  | S c =>
      String (hex_digit (N.land (N.shiftr u (4 * N.of_nat (from + c))) 15))
             (hex_run u from c)
  end.

(** [str(u)]: the 32 digits in groups of 8, 4, 4, 4 and 12. *)
Definition str (u : N) : string :=
  hex_run u 24 8 ++ "-" ++ hex_run u 20 4 ++ "-" ++ hex_run u 16 4
    ++ "-" ++ hex_run u 12 4 ++ "-" ++ hex_run u 0 12.

End UUID.

(** ** The environment of a request and the state of the world *)

Record LlmChat := {
  api_key : string;
  session_id : string;
  system_message : string;
  provider : string;
  model : string;
  max_tokens : Z
}.

(** What one request reads from outside the process. *)
Record env := {
  GEMINI_API_KEY : option string;
  urandom_session : N;
  urandom_id : N;
  utcnow : Z;
  ObjectId : N;
  send_message : LlmChat -> string -> result string
}.

(** The two collections, in insertion order, and the messages sent to the
    model so far. *)
Record world := {
  project_requirements : list document;
  project_plans : list document;
  sent_messages : list (LlmChat * string)
}.

Module Collection.

(** The filter [{"id": x}] on a document of the two collections. *)
Definition matches_id (x : string) (d : document) : bool :=
  match d !! "id" with
  | Some (VStr s) => String.eqb s x
  | _ => false
  end.

Definition find_one (x : string) (coll : list document) : option document :=
  List.find (matches_id x) coll.

(** A value as it comes back from the store: BSON keeps a [datetime] to
    the millisecond (times are in microseconds here). *)
Fixpoint bson (v : value) : value :=
  match v with
  | VDatetime t => VDatetime (1000 * (t / 1000))
  | VList l => VList (bson <$> l)
  | VDict d => VDict (bson <$> d)
  | _ => v
  end.

(** The driver gives a document without [_id] a new [ObjectId]. *)
Definition with_object_id (oid : N) (doc : document) : document :=
  match doc !! "_id" with
  | Some _ => doc
  | None => <["_id" := VObjectId oid]> doc
  end.

Definition insert_one (oid : N) (doc : document) (coll : list document)
  : list document :=
  coll ++ [bson <$> with_object_id oid doc].

(** [find().to_list(n)] *)
Definition to_list (n : nat) (coll : list document) : list document :=
  take n coll.

End Collection.

(** ** The planning agent *)

Section Server.

Context {X : Externals}.

Definition system_message_text : string :=
  String.concat nl
   ["You are an expert AI Project Manager with 20+ years of experience in project planning and management. ";
    "        Your role is to analyze project requirements and generate comprehensive, professional project plans that completely replace human PM capabilities.";
    "        ";
    "        You excel at:";
    "        - Converting vague requirements into SMART objectives";
    "        - Creating detailed Work Breakdown Structures (WBS)";
    "        - Estimating realistic timelines and resources";
    "        - Identifying risks and mitigation strategies";
    "        - Defining success metrics and KPIs";
    "        ";
    "        Always provide structured, actionable project plans that demonstrate superior analysis compared to human project managers."].

Definition get_gemini_chat (e : env) : result LlmChat :=
  match GEMINI_API_KEY e with
  | None => Raise (HTTPException 500 "Gemini API key not configured")
  | Some key =>
      if PyStr.is_empty key
      then Raise (HTTPException 500 "Gemini API key not configured")
      else Return {| api_key := key;
                     session_id :=
                       "planning_agent_"
                         ++ UUID.str (UUID.uuid4 (urandom_session e));
                     system_message := system_message_text;
                     provider := "gemini";
                     model := "gemini-2.0-flash";
                     max_tokens := 8000 |}
  end.

(** [x or d] on an optional string: [None] and the empty string are false. *)
Definition or_default (x : option string) (d : string) : string :=
  match x with
  | Some s => if PyStr.is_empty s then d else s
  | None => d
  end.

Definition prompt_head : string :=
  nl ++ "    AUTONOMOUS PROJECT PLANNING REQUEST" ++ nl
     ++ nl
     ++ "    PROJECT DETAILS:" ++ nl
     ++ "    - Title: ".

Definition prompt_tail : string :=
  String.concat nl
   [""; (* the end of the budget line *)
    "";
    "    GENERATE A COMPREHENSIVE PROJECT PLAN WITH THE FOLLOWING STRUCTURE:";
    "";
    "    Please respond with a valid JSON object containing:";
    "";
    "    {";
    "        " ++ quoted "objectives" ++ ": [";
    "            {";
    "                " ++ quoted "objective" ++ ": " ++ quoted "Main objective statement" ++ ",";
    "                " ++ quoted "specific" ++ ": " ++ quoted "Specific details" ++ ",";
    "                " ++ quoted "measurable" ++ ": " ++ quoted "How success will be measured" ++ ",";
    "                " ++ quoted "achievable" ++ ": " ++ quoted "Why this is achievable" ++ ",";
    "                " ++ quoted "relevant" ++ ": " ++ quoted "Business relevance" ++ ",";
    "                " ++ quoted "time_bound" ++ ": " ++ quoted "Timeline commitment";
    "            }";
    "        ],";
    "        " ++ quoted "wbs_tasks" ++ ": [";
    "            {";
    "                " ++ quoted "id" ++ ": " ++ quoted "task_1" ++ ",";
    "                " ++ quoted "name" ++ ": " ++ quoted "Task Name" ++ ",";
    "                " ++ quoted "description" ++ ": " ++ quoted "Detailed task description" ++ ",";
    "                " ++ quoted "level" ++ ": 1,";
    "                " ++ quoted "parent_id" ++ ": null,";
    "                " ++ quoted "estimated_hours" ++ ": 40,";
    "                " ++ quoted "dependencies" ++ ": [],";
    "                " ++ quoted "assigned_role" ++ ": " ++ quoted "Role responsible" ++ ",";
    "                " ++ quoted "priority" ++ ": " ++ quoted "High/Medium/Low";
    "            }";
    "        ],";
    "        " ++ quoted "timeline_weeks" ++ ": 12,";
    "        " ++ quoted "resource_estimates" ++ ": [";
    "            {";
    "                " ++ quoted "role" ++ ": " ++ quoted "Project Manager" ++ ",";
    "                " ++ quoted "hours_required" ++ ": 200,";
    "                " ++ quoted "skill_level" ++ ": " ++ quoted "Senior" ++ ",";
    "                " ++ quoted "cost_estimate" ++ ": 25000";
    "            }";
    "        ],";
    "        " ++ quoted "risk_analysis" ++ ": [";
    "            {";
    "                " ++ quoted "risk" ++ ": " ++ quoted "Risk description" ++ ",";
    "                " ++ quoted "probability" ++ ": " ++ quoted "High/Medium/Low" ++ ",";
    "                " ++ quoted "impact" ++ ": " ++ quoted "High/Medium/Low" ++ ", ";
    "                " ++ quoted "mitigation_strategy" ++ ": " ++ quoted "How to mitigate" ++ ",";
    "                " ++ quoted "owner" ++ ": " ++ quoted "Who owns this risk";
    "            }";
    "        ],";
    "        " ++ quoted "success_metrics" ++ ": [" ++ quoted "Metric 1" ++ ", " ++ quoted "Metric 2" ++ "],";
    "        " ++ quoted "next_steps" ++ ": [" ++ quoted "Step 1" ++ ", " ++ quoted "Step 2" ++ "],";
    "        " ++ quoted "confidence_score" ++ ": 0.85";
    "    }";
    "";
    "    IMPORTANT: Return ONLY the JSON object, no additional text or formatting.";
    "    "].

(** The f-string of [generate_project_plan]. *)
Definition planning_prompt (requirements : ProjectRequirements.t) : string :=
  prompt_head ++ ProjectRequirements.title requirements
    ++ (nl ++ "    - Description: ")
    ++ ProjectRequirements.description requirements
    ++ (nl ++ "    - Business Context: ")
    ++ ProjectRequirements.business_context requirements
    ++ (nl ++ "    - Success Criteria: ")
    ++ ProjectRequirements.success_criteria requirements
    ++ (nl ++ "    - Constraints: ")
    ++ ProjectRequirements.constraints requirements
    ++ (nl ++ "    - Stakeholders: ")
    ++ ProjectRequirements.stakeholders requirements
    ++ (nl ++ "    - Timeline Preference: ")
    ++ ProjectRequirements.timeline_preference requirements
    ++ (nl ++ "    - Budget Range: ")
    ++ or_default (ProjectRequirements.budget_range requirements)
                  "Not specified"
    ++ prompt_tail.

(** The text handed to [json.loads]: the reply without the whitespace
    around it and, when it starts with a fence, without its first seven (or
    three) and its last three characters. *)
Definition response_text_of (response : string) : string :=
  let response_text := PyStr.strip response in
  if PyStr.startswith response_text "```json"
  then PyStr.slice response_text 7 (-3)
  else if PyStr.startswith response_text "```"
  then PyStr.slice response_text 3 (-3)
  else response_text.

(** The two [except] clauses of [generate_project_plan]. *)
Definition plan_failure (x : exn) : exn :=
  match x with
  | JSONDecodeError =>
      HTTPException 500 "Failed to generate valid project plan"
  | _ => HTTPException 500 "Failed to generate project plan"
  end.

Definition generate_project_plan (e : env)
    (requirements : ProjectRequirements.t) (w : world)
  : result value * world :=
  match get_gemini_chat e with
  | Raise x => (Raise x, w)
  | Return chat =>
      let user_message := planning_prompt requirements in
      let w' := {| project_requirements := project_requirements w;
                   project_plans := project_plans w;
                   sent_messages :=
                     sent_messages w ++ [(chat, user_message)] |} in
      match send_message e chat user_message with
      | Raise x => (Raise (plan_failure x), w')
      | Return response =>
          match json_loads (response_text_of response) with
          | None => (Raise (plan_failure JSONDecodeError), w')
          | Some plan_data => (Return plan_data, w')
          end
      end
  end.

(** ** The routes *)

Definition root : document :=
  {[ "message" := VStr "Autonomous AI Project Manager - Planning Agent Ready" ]}.

Definition create_project_requirements (e : env)
    (input : ProjectRequirementsCreate.t) (w : world)
  : result ProjectRequirements.t * world :=
  let requirements_dict := ProjectRequirementsCreate.dict input in
  match ProjectRequirements.make (UUID.str (UUID.uuid4 (urandom_id e)))
                                 (utcnow e) requirements_dict with
  | Raise x => (Raise x, w)
  | Return requirements_obj =>
      (Return requirements_obj,
       {| project_requirements :=
            Collection.insert_one (ObjectId e)
              (ProjectRequirements.dict requirements_obj)
              (project_requirements w);
          project_plans := project_plans w;
          sent_messages := sent_messages w |})
  end.

(** A document that the filter finds has an [id] field, so it is not an
    empty dict and [not requirements] tests for [None] alone. *)
Definition get_project_requirements (e : env) (requirements_id : string)
    (w : world) : result ProjectRequirements.t :=
  match Collection.find_one requirements_id (project_requirements w) with
  | None => Raise (HTTPException 404 "Project requirements not found")
  | Some requirements =>
      ProjectRequirements.make (UUID.str (UUID.uuid4 (urandom_id e)))
                               (utcnow e) requirements
  end.

(** The argument list of the [ProjectPlan] call in [generate_plan], left to
    right, and then the call. *)
Definition project_plan_of (e : env) (requirements_id : string)
    (plan_data : value) : result ProjectPlan.t :=
  objectives ←
    (v ← subscript plan_data "objectives"; items ← iterate v;
     comprehension (fun obj => kw ← keywords obj; ProjectObjective.make kw)
                   items);
  wbs_tasks ←
    (v ← subscript plan_data "wbs_tasks"; items ← iterate v;
     comprehension (fun task => kw ← keywords task; WBSTask.make kw) items);
  timeline_weeks ← subscript plan_data "timeline_weeks";
  resource_estimates ←
    (v ← subscript plan_data "resource_estimates"; items ← iterate v;
     comprehension (fun res => kw ← keywords res; ResourceEstimate.make kw)
                   items);
  risk_analysis ←
    (v ← subscript plan_data "risk_analysis"; items ← iterate v;
     comprehension (fun risk => kw ← keywords risk; RiskItem.make kw) items);
  success_metrics ← subscript plan_data "success_metrics";
  next_steps ← subscript plan_data "next_steps";
  confidence_score ← subscript plan_data "confidence_score";
  ProjectPlan.make (UUID.str (UUID.uuid4 (urandom_id e))) (utcnow e)
    (VStr requirements_id) objectives wbs_tasks timeline_weeks
    resource_estimates risk_analysis success_metrics next_steps
    confidence_score.

Definition generate_plan (e : env) (requirements_id : string) (w : world)
  : result ProjectPlan.t * world :=
  match Collection.find_one requirements_id (project_requirements w) with
  | None => (Raise (HTTPException 404 "Project requirements not found"), w)
  | Some requirements_doc =>
      match ProjectRequirements.make (UUID.str (UUID.uuid4 (urandom_id e)))
                                     (utcnow e) requirements_doc with
      | Raise x => (Raise x, w)
      | Return requirements =>
          let (generated, w') := generate_project_plan e requirements w in
          match plan_data ← generated;
                project_plan_of e requirements_id plan_data with
          | Return project_plan =>
              (Return project_plan,
               {| project_requirements := project_requirements w';
                  project_plans :=
                    Collection.insert_one (ObjectId e)
                      (ProjectPlan.dict project_plan) (project_plans w');
                  sent_messages := sent_messages w' |})
          | Raise x =>
              (Raise (HTTPException 500
                        ("Failed to generate project plan: " ++ str_of_exn x)),
               w')
          end
      end
  end.

Definition get_project_plan (plan_id : string) (w : world) : result document :=
  match Collection.find_one plan_id (project_plans w) with
  | None => Raise (HTTPException 404 "Project plan not found")
  | Some plan => Return plan
  end.

Definition get_all_project_plans (w : world) : list document :=
  Collection.to_list 100 (project_plans w).

Definition get_all_project_requirements (w : world) : list document :=
  (fun req => delete "_id" req)
    <$> Collection.to_list 100 (project_requirements w).

End Server.

(** ** The API as a transition system *)

Inductive request :=
| GET_root
| POST_project_requirements (input : ProjectRequirementsCreate.t)
| GET_project_requirements (requirements_id : string)
| POST_generate_plan (requirements_id : string)
| GET_project_plan (plan_id : string)
| GET_project_plans
| GET_all_project_requirements.

(** What a route returns to FastAPI. *)
Inductive body :=
| Document (d : document)
| Documents (l : list document)
| Requirements (r : ProjectRequirements.t)
| Plan (p : ProjectPlan.t).

Section Api.

Context {X : Externals}.

Definition handle (e : env) (req : request) (w : world)
  : result body * world :=
  match req with
  | GET_root => (Return (Document root), w)
  | POST_project_requirements input =>
      let (r, w') := create_project_requirements e input w in
      (Requirements <$> r, w')
  | GET_project_requirements requirements_id =>
      (Requirements <$> get_project_requirements e requirements_id w, w)
  | POST_generate_plan requirements_id =>
      let (r, w') := generate_plan e requirements_id w in
      (Plan <$> r, w')
  | GET_project_plan plan_id => (Document <$> get_project_plan plan_id w, w)
  | GET_project_plans => (Return (Documents (get_all_project_plans w)), w)
  | GET_all_project_requirements =>
      (Return (Documents (get_all_project_requirements w)), w)
  end.

(** The world after a sequence of requests, each with its environment. *)
Fixpoint run (ops : list (env * request)) (w : world) : world :=
  match ops with
  | [] => w
  | (e, req) :: ops' => run ops' (snd (handle e req w))
  end.

End Api.

Definition empty_world : world :=
  {| project_requirements := []; project_plans := []; sent_messages := [] |}.

(** A document as a request with environment [e] inserts it: under [id] the
    identifier drawn for that request, and an [_id]. *)
Definition inserted_by (e : env) (d : document) : Prop :=
  d !! "id" = Some (VStr (UUID.str (UUID.uuid4 (urandom_id e))))
  /\ is_Some (d !! "_id").


(** ** A reference instance of the libraries

    A small JSON reader (no escapes beyond the two-character ones, no
    exponents) and validators that accept a value of the field's own type,
    and an integer for a float.  The examples below run the handlers with
    it. *)

Module Reference.

Fixpoint skip_ws (l : list ascii) : list ascii :=
  match l with
  | c :: l' => if json_ws c then skip_ws l' else l
  | [] => []
  end.

Definition trim (l : list ascii) : list ascii :=
  rev (skip_ws (rev (skip_ws l))).

Definition digit (c : ascii) : option Z :=
  let n := Z.of_nat (nat_of_ascii c) in
  if (48 <=? n) && (n <=? 57) then Some (n - 48) else None.

(** The digits at the head of [l]: their value after [acc], how many
    there are, and what follows them. *)
Fixpoint digits (l : list ascii) (acc : Z) (count : nat)
  : Z * nat * list ascii :=
  match l with
  | c :: l' =>
      match digit c with
      | Some d => digits l' (10 * acc + d) (S count)
      | None => (acc, count, l)
      end
  | [] => (acc, count, l)
  end.

Definition float_of_int (z : Z) : spec_float :=
  binary_normalize 53 1024 z 0 false.

(** An integer, or a decimal [m / 10^k] rounded by one division. *)
Definition number (negative : bool) (l : list ascii)
  : option (value * list ascii) :=
  let sign (z : Z) := if negative then - z else z in
  match digits l 0 0 with
  | (_, O, _) => None
  | (n, S _, "."%char :: l') =>
      match digits l' n 0 with
      | (_, O, _) => None
      | (m, S k, rest) =>
          Some (VFloat (SFdiv 53 1024 (float_of_int (sign m))
                              (float_of_int (10 ^ Z.of_nat (S k)))),
                rest)
      end
  | (n, S _, rest) => Some (VInt (sign n), rest)
  end.

(** The characters of a string literal after its opening quote. *)
Fixpoint string_body (l : list ascii) : option (string * list ascii) :=
  match l with
  | [] => None
  | c :: l' =>
      match nat_of_ascii c with
      | 34%nat => Some (EmptyString, l')
      | 92%nat =>
          match l' with
          | e :: l'' =>
              let unescaped :=
                match nat_of_ascii e with
                | 34%nat | 92%nat | 47%nat => Some e
                | 110%nat => Some (ascii_of_nat 10)
                | 116%nat => Some (ascii_of_nat 9)
                | 114%nat => Some (ascii_of_nat 13)
                | _ => None
                end in
              match unescaped, string_body l'' with
              | Some u, Some (s, rest) => Some (String u s, rest)
              | _, _ => None
              end
          | [] => None
          end
      | _ =>
          match string_body l' with
          | Some (s, rest) => Some (String c s, rest)
          | None => None
          end
      end
  end.

Fixpoint parse_value (fuel : nat) (l : list ascii) {struct fuel}
  : option (value * list ascii) :=
  match fuel with
  | O => None
  | S fuel =>
      match skip_ws l with
      | "n"%char :: "u"%char :: "l"%char :: "l"%char :: rest =>
          Some (VNone, rest)
      | "t"%char :: "r"%char :: "u"%char :: "e"%char :: rest =>
          Some (VBool true, rest)
      | "f"%char :: "a"%char :: "l"%char :: "s"%char :: "e"%char :: rest =>
          Some (VBool false, rest)
      | "["%char :: rest =>
          match skip_ws rest with
          | "]"%char :: rest' => Some (VList [], rest')
          | _ =>
              match parse_elements fuel rest with
              | Some (vs, rest') => Some (VList vs, rest')
              | None => None
              end
          end
      | "{"%char :: rest =>
          match skip_ws rest with
          | "}"%char :: rest' => Some (VDict ∅, rest')
          | _ =>
              match parse_members fuel rest with
              | Some (d, rest') => Some (VDict d, rest')
              | None => None
              end
          end
      | "-"%char :: rest => number true rest
      | c :: rest =>
          if Nat.eqb (nat_of_ascii c) 34
          then match string_body rest with
               | Some (s, rest') => Some (VStr s, rest')
               | None => None
               end
          else number false (c :: rest)
      | [] => None
      end
  end
with parse_elements (fuel : nat) (l : list ascii) {struct fuel}
  : option (list value * list ascii) :=
  match fuel with
  | O => None
  | S fuel =>
      match parse_value fuel l with
      | Some (v, rest) =>
          match skip_ws rest with
          | ","%char :: rest' =>
              match parse_elements fuel rest' with
              | Some (vs, rest'') => Some (v :: vs, rest'')
              | None => None
              end
          | "]"%char :: rest' => Some ([v], rest')
          | _ => None
          end
      | None => None
      end
  end
with parse_members (fuel : nat) (l : list ascii) {struct fuel}
  : option (gmap string value * list ascii) :=
  match fuel with
  | O => None
  | S fuel =>
      match skip_ws l with
      | q :: rest =>
          if Nat.eqb (nat_of_ascii q) 34
          then
            match string_body rest with
            | Some (key, rest1) =>
                match skip_ws rest1 with
                | ":"%char :: rest2 =>
                    match parse_value fuel rest2 with
                    | Some (v, rest3) =>
                        match skip_ws rest3 with
                        | ","%char :: rest4 =>
                            match parse_members fuel rest4 with
                            | Some (d, rest5) =>
                                Some (d ∪ {[ key := v ]}, rest5)
                            | None => None
                            end
                        | "}"%char :: rest4 => Some ({[ key := v ]}, rest4)
                        | _ => None
                        end
                    | None => None
                    end
                | _ => None
                end
            | None => None
            end
          else None
      | [] => None
      end
  end.

Definition loads (s : string) : option value :=
  let l := trim (list_ascii_of_string s) in
  match parse_value (2 * length l + 2) l with
  | Some (v, []) => Some v
  | _ => None
  end.

Definition str_validator (v : value) : option string :=
  match v with VStr s => Some s | _ => None end.

Definition int_validator (v : value) : option Z :=
  match v with VInt z => Some z | _ => None end.

Definition float_validator (v : value) : option spec_float :=
  match v with
  | VFloat f => Some f
  | VInt z => Some (float_of_int z)
  | _ => None
  end.

Definition datetime_validator (v : value) : option Z :=
  match v with VDatetime t => Some t | _ => None end.

Definition str_of_exn (x : exn) : string :=
  match x with
  | HTTPException _ detail => detail
  | JSONDecodeError => "JSONDecodeError"
  | KeyError key => key
  | TypeError => "TypeError"
  | ValidationError => "ValidationError"
  | ModelCallError msg => msg
  end.

Definition externals : Externals :=
  Build_Externals loads str_validator int_validator float_validator
                  datetime_validator str_of_exn.

End Reference.

(** ** A run of the service, used in the examples *)

Module SampleRun.

Definition kv (key text : string) : string := quoted key ++ ": " ++ text.
Definition object (fields : list string) : string :=
  "{" ++ String.concat ", " fields ++ "}".
Definition array (items : list string) : string :=
  "[" ++ String.concat ", " items ++ "]".

(** The sample project of [backend_test.py]. *)
Definition sample_project : ProjectRequirementsCreate.t :=
  {| ProjectRequirementsCreate.title := "E-commerce Platform Development";
     ProjectRequirementsCreate.description :=
       "Build a modern e-commerce platform with user authentication, product catalog, shopping cart, and payment processing";
     ProjectRequirementsCreate.business_context :=
       "Need to compete with major e-commerce platforms and provide seamless shopping experience for customers";
     ProjectRequirementsCreate.success_criteria :=
       "Platform launches successfully, handles 1000+ concurrent users, achieves 99.9% uptime, generates $100K+ revenue in first quarter";
     ProjectRequirementsCreate.constraints :=
       "6-month deadline, $200K budget, team of 5 developers, must integrate with existing inventory system";
     ProjectRequirementsCreate.stakeholders :=
       "Product Manager, Engineering Team, Marketing Team, Finance Team, Executive Sponsor";
     ProjectRequirementsCreate.timeline_preference :=
       "6 months maximum, launch by Q3 2025";
     ProjectRequirementsCreate.budget_range := Some "$150K - $200K" |}.

(** A reply of the model that follows the schema of the prompt. *)
Definition plan_json : string :=
  object
    [kv "objectives"
        (array [object [kv "objective" (quoted "Launch the platform");
                        kv "specific" (quoted "Catalog, cart and payment");
                        kv "measurable" (quoted "1000 concurrent users");
                        kv "achievable" (quoted "Team of 5 developers");
                        kv "relevant" (quoted "Compete with major platforms");
                        kv "time_bound" (quoted "6 months")]]);
     kv "wbs_tasks"
        (array [object [kv "id" (quoted "task_1");
                        kv "name" (quoted "Design");
                        kv "description" (quoted "Design the catalog");
                        kv "level" "1";
                        kv "parent_id" "null";
                        kv "estimated_hours" "40";
                        kv "dependencies" "[]";
                        kv "assigned_role" (quoted "Architect");
                        kv "priority" (quoted "High")];
                object [kv "id" (quoted "task_2");
                        kv "name" (quoted "Build");
                        kv "description" (quoted "Build the cart");
                        kv "level" "2";
                        kv "parent_id" (quoted "task_1");
                        kv "estimated_hours" "120";
                        kv "dependencies" (array [quoted "task_1"]);
                        kv "assigned_role" (quoted "Developer");
                        kv "priority" (quoted "Medium")]]);
     kv "timeline_weeks" "24";
     kv "resource_estimates"
        (array [object [kv "role" (quoted "Project Manager");
                        kv "hours_required" "200";
                        kv "skill_level" (quoted "Senior");
                        kv "cost_estimate" "25000"]]);
     kv "risk_analysis"
        (array [object [kv "risk" (quoted "Inventory integration");
                        kv "probability" (quoted "Medium");
                        kv "impact" (quoted "High");
                        kv "mitigation_strategy" (quoted "Early prototype");
                        kv "owner" (quoted "Engineering Team")]]);
     kv "success_metrics" (array [quoted "Uptime"; quoted "Revenue"]);
     kv "next_steps" (array [quoted "Kick-off"; quoted "Hire"; quoted "Plan"]);
     kv "confidence_score" "0.85"].

(** The environment of the request that posts the requirements. *)
Definition env_post : env :=
  {| GEMINI_API_KEY := Some "key";
     urandom_session := 0;
     urandom_id := 0x0123456789abcdef0123456789abcdef;
     utcnow := 1762300800123456;
     ObjectId := 1;
     send_message := fun _ _ => Raise (ModelCallError "no call expected") |}.

Definition requirements_id : string :=
  UUID.str (UUID.uuid4 (urandom_id env_post)).

(** The environment of a request that generates a plan; the model answers
    with [response]. *)
Definition env_generate (response : string) : env :=
  {| GEMINI_API_KEY := Some "key";
     urandom_session := 7;
     urandom_id := 0xfedcba9876543210fedcba9876543210;
     utcnow := 1762300860654321;
     ObjectId := 2;
     send_message := fun _ _ => Return response |}.

Definition world_posted : world :=
  snd (@create_project_requirements Reference.externals env_post
         sample_project empty_world).

(** The record the POST returns, and the document the store gives back
    for it. *)
Definition posted : ProjectRequirements.t :=
  {| ProjectRequirements.id := requirements_id;
     ProjectRequirements.title :=
       ProjectRequirementsCreate.title sample_project;
     ProjectRequirements.description :=
       ProjectRequirementsCreate.description sample_project;
     ProjectRequirements.business_context :=
       ProjectRequirementsCreate.business_context sample_project;
     ProjectRequirements.success_criteria :=
       ProjectRequirementsCreate.success_criteria sample_project;
     ProjectRequirements.constraints :=
       ProjectRequirementsCreate.constraints sample_project;
     ProjectRequirements.stakeholders :=
       ProjectRequirementsCreate.stakeholders sample_project;
     ProjectRequirements.timeline_preference :=
       ProjectRequirementsCreate.timeline_preference sample_project;
     ProjectRequirements.budget_range :=
       ProjectRequirementsCreate.budget_range sample_project;
     ProjectRequirements.created_at := utcnow env_post |}.

Definition requirements_doc : document :=
  Collection.bson
    <$> Collection.with_object_id (ObjectId env_post)
          (ProjectRequirements.dict posted).

Definition stored : ProjectRequirements.t :=
  {| ProjectRequirements.id := ProjectRequirements.id posted;
     ProjectRequirements.title := ProjectRequirements.title posted;
     ProjectRequirements.description :=
       ProjectRequirements.description posted;
     ProjectRequirements.business_context :=
       ProjectRequirements.business_context posted;
     ProjectRequirements.success_criteria :=
       ProjectRequirements.success_criteria posted;
     ProjectRequirements.constraints :=
       ProjectRequirements.constraints posted;
     ProjectRequirements.stakeholders :=
       ProjectRequirements.stakeholders posted;
     ProjectRequirements.timeline_preference :=
       ProjectRequirements.timeline_preference posted;
     ProjectRequirements.budget_range :=
       ProjectRequirements.budget_range posted;
     ProjectRequirements.created_at := 1762300800123000 |}.

(** The reply of the model inside a fence, the chat it is sent on, and
    what the reference reader makes of it. *)
Definition fenced_reply : string :=
  "```json" ++ nl ++ plan_json ++ nl ++ "```".

Definition chat : LlmChat :=
  {| api_key := "key";
     session_id := "planning_agent_" ++ UUID.str (UUID.uuid4 7);
     system_message := system_message_text;
     provider := "gemini";
     model := "gemini-2.0-flash";
     max_tokens := 8000 |}.

Definition reply_doc : document :=
  match Reference.loads plan_json with
  | Some (VDict d) => d
  | _ => ∅
  end.


Definition no_plan : ProjectPlan.t :=
  {| ProjectPlan.id := ""; ProjectPlan.project_requirements_id := "";
     ProjectPlan.objectives := []; ProjectPlan.wbs_tasks := [];
     ProjectPlan.timeline_weeks := 0;
     ProjectPlan.resource_estimates := [];
     ProjectPlan.risk_analysis := []; ProjectPlan.success_metrics := [];
     ProjectPlan.next_steps := [];
     ProjectPlan.confidence_score := S754_zero false;
     ProjectPlan.created_at := 0 |}.

Definition plan : ProjectPlan.t :=
  match @project_plan_of Reference.externals (env_generate fenced_reply)
          requirements_id (VDict reply_doc) with
  | Return p => p
  | Raise _ => no_plan
  end.

End SampleRun.

(** ** What the routes read and write *)

(** The keys of the reply that [generate_plan] reads, in the order it reads
    them, and those among them that it iterates over. *)
Definition plan_keys : list string :=
  ["objectives"; "wbs_tasks"; "timeline_weeks"; "resource_estimates";
   "risk_analysis"; "success_metrics"; "next_steps"; "confidence_score"].

Definition iterated_keys : list string :=
  ["objectives"; "wbs_tasks"; "resource_estimates"; "risk_analysis"].

(** The two routes that insert, as tests on a request. *)
Definition posts_requirements (req : request) : bool :=
  match req with POST_project_requirements _ => true | _ => false end.

Definition generates_plan (req : request) : bool :=
  match req with POST_generate_plan _ => true | _ => false end.

(** The identifier that a request with environment [e] gives to the
    document it inserts. *)
Definition drawn_id (e : env) : string :=
  UUID.str (UUID.uuid4 (urandom_id e)).

(** The [id] of a document of the store, when it is a string. *)
Definition id_of (d : document) : option string :=
  match d !! "id" with
  | Some (VStr s) => Some s
  | _ => None
  end.

(** How many requests of a sequence pass a test. *)
Definition count_requests (p : request -> bool) (ops : list (env * request))
  : nat :=
  length (List.filter (fun op => p (snd op)) ops).

(** A document as the POST of requirements stores it: the document of a
    requirements record, with an [_id], as it comes back from the store. *)
Definition stored_requirements_document (d : document) : Prop :=
  exists (oid : N) (r : ProjectRequirements.t),
    d = Collection.bson
          <$> Collection.with_object_id oid (ProjectRequirements.dict r).

(** A message as plan generation sends it: the prompt of a requirements
    record, on a chat with the settings of [get_gemini_chat]. *)
Definition planning_message (m : LlmChat * string) : Prop :=
  provider (fst m) = "gemini"
  /\ model (fst m) = "gemini-2.0-flash"
  /\ max_tokens (fst m) = 8000
  /\ system_message (fst m) = system_message_text
  /\ api_key (fst m) <> ""
  /\ exists r : ProjectRequirements.t, snd m = planning_prompt r.

(** ** More requests on the sample run *)

Module SampleFailures.

(** A request made while no API key is configured. *)
Definition env_no_key : env :=
  {| GEMINI_API_KEY := None;
     urandom_session := 8;
     urandom_id := 0x00112233445566778899aabbccddeeff;
     utcnow := 1762300920000001;
     ObjectId := 3;
     send_message := fun _ _ => Return SampleRun.fenced_reply |}.

(** A request during which the call to the model raises. *)
Definition env_model_down : env :=
  {| GEMINI_API_KEY := Some "key";
     urandom_session := 7;
     urandom_id := 0x00112233445566778899aabbccddeeff;
     utcnow := 1762300920000001;
     ObjectId := 3;
     send_message := fun _ _ => Raise (ModelCallError "timeout") |}.

(** Replies that are JSON but not a plan. *)
Definition only_objectives : document := {[ "objectives" := VList [] ]}.

Definition metrics_as_text : document :=
  <["success_metrics" := VStr "Uptime, Revenue"]> SampleRun.reply_doc.

(** The posted record with an empty budget range, and with none. *)
Definition with_budget (budget : option string) : ProjectRequirements.t :=
  {| ProjectRequirements.id := ProjectRequirements.id SampleRun.posted;
     ProjectRequirements.title := ProjectRequirements.title SampleRun.posted;
     ProjectRequirements.description :=
       ProjectRequirements.description SampleRun.posted;
     ProjectRequirements.business_context :=
       ProjectRequirements.business_context SampleRun.posted;
     ProjectRequirements.success_criteria :=
       ProjectRequirements.success_criteria SampleRun.posted;
     ProjectRequirements.constraints :=
       ProjectRequirements.constraints SampleRun.posted;
     ProjectRequirements.stakeholders :=
       ProjectRequirements.stakeholders SampleRun.posted;
     ProjectRequirements.timeline_preference :=
       ProjectRequirements.timeline_preference SampleRun.posted;
     ProjectRequirements.budget_range := budget;
     ProjectRequirements.created_at :=
       ProjectRequirements.created_at SampleRun.posted |}.

(** The POST of the sample project followed by a plan generation. *)
Definition post_then_generate : list (env * request) :=
  [(SampleRun.env_post, POST_project_requirements SampleRun.sample_project);
   (SampleRun.env_generate SampleRun.fenced_reply,
    POST_generate_plan SampleRun.requirements_id)].

End SampleFailures.

(** ** Lemmas on strings *)

Section StringFacts.

Import PyStr.

Lemma string_app_cons (c : ascii) (s t : string) :
  String c s ++ t = String c (s ++ t).
Proof. reflexivity. Qed.

Lemma string_app_nil_l (s : string) : "" ++ s = s.
Proof. reflexivity. Qed.

Lemma string_app_nil_r (s : string) : s ++ "" = s.
Proof.
  induction s as [|c s IH]; [reflexivity|].
  now rewrite string_app_cons, IH.
Qed.

Lemma string_app_assoc (a b c : string) : (a ++ b) ++ c = a ++ b ++ c.
Proof.
  induction a as [|x a IH]; [reflexivity|].
  now rewrite !string_app_cons, IH.
Qed.

Lemma string_length_app (a b : string) :
  String.length (a ++ b) = (String.length a + String.length b)%nat.
Proof.
  induction a as [|x a IH]; [reflexivity|].
  rewrite string_app_cons. simpl. now rewrite IH.
Qed.

Lemma list_ascii_app (a b : string) :
  list_ascii_of_string (a ++ b)
  = (list_ascii_of_string a ++ list_ascii_of_string b)%list.
Proof.
  induction a as [|x a IH]; [reflexivity|].
  rewrite string_app_cons. simpl. now rewrite IH.
Qed.

Lemma list_ascii_length (s : string) :
  length (list_ascii_of_string s) = String.length s.
Proof. induction s as [|c s IH]; simpl; [reflexivity | now rewrite IH]. Qed.

Lemma list_ascii_substring (s : string) :
  forall n m : nat,
    list_ascii_of_string (substring n m s)
    = take m (drop n (list_ascii_of_string s)).
Proof.
  induction s as [|c s IH]; intros n m.
  - destruct n, m; reflexivity.
  - destruct n as [|n]; simpl.
    + destruct m as [|m]; simpl; [reflexivity|].
      rewrite (IH 0%nat m). now rewrite drop_0.
    + apply IH.
Qed.

Lemma list_ascii_inj (s t : string) :
  list_ascii_of_string s = list_ascii_of_string t -> s = t.
Proof.
  intros H. rewrite <- (string_of_list_ascii_of_string s).
  rewrite H. apply string_of_list_ascii_of_string.
Qed.

Lemma startswith_app (p s : string) : startswith (p ++ s) p = true.
Proof.
  unfold startswith. induction p as [|c p IH].
  - now destruct s.
  - rewrite string_app_cons. simpl.
    destruct (ascii_dec c c) as [_|ne]; [exact IH | now destruct ne].
Qed.

(** A slice that cuts a known prefix and a known, non-empty suffix leaves
    the middle.  (With an empty suffix the stop index would be [-0 = 0].) *)
Lemma slice_middle (p m q : string) :
  (0 < String.length q)%nat ->
  slice (p ++ m ++ q) (Z.of_nat (String.length p))
        (- Z.of_nat (String.length q)) = m.
Proof.
  intros Hq. apply list_ascii_inj. unfold slice.
  rewrite list_ascii_substring, !string_length_app, !list_ascii_app.
  set (lp := String.length p) in *. set (lm := String.length m) in *.
  set (lq := String.length q) in *.
  assert (Ha : slice_index (Z.of_nat (lp + (lm + lq))) (Z.of_nat lp)
               = Z.of_nat lp).
  { unfold slice_index. destruct (Z.ltb_spec (Z.of_nat lp) 0); lia. }
  assert (Hb : slice_index (Z.of_nat (lp + (lm + lq))) (- Z.of_nat lq)
               = Z.of_nat (lp + lm)).
  { unfold slice_index. destruct (Z.ltb_spec (- Z.of_nat lq) 0); lia. }
  rewrite Ha, Hb.
  replace (Z.to_nat (Z.of_nat lp)) with lp by lia.
  replace (Z.to_nat (Z.of_nat (lp + lm) - Z.of_nat lp)) with lm by lia.
  rewrite drop_app_length'; [|subst lp; now rewrite list_ascii_length].
  rewrite take_app_length'; [reflexivity|subst lm; now rewrite list_ascii_length].
Qed.

(** What a slice [s[a:-b]] leaves, for any string: the string without its
    first [a] and without its last [b] characters. *)
Lemma slice_drop (s : string) (a b : nat) :
  (0 < b)%nat ->
  slice s (Z.of_nat a) (- Z.of_nat b) = drop_last b (drop_first a s).
Proof.
  intros Hb. apply list_ascii_inj. unfold slice, drop_last, drop_first.
  rewrite list_ascii_substring, !list_ascii_of_string_of_list_ascii.
  rewrite <- list_ascii_length.
  set (l := list_ascii_of_string s).
  rewrite skipn_rev, rev_involutive, length_drop.
  assert (Hi : slice_index (Z.of_nat (length l)) (Z.of_nat a)
               = Z.of_nat (Nat.min a (length l))).
  { unfold slice_index. destruct (Z.ltb_spec (Z.of_nat a) 0); lia. }
  assert (Hj : slice_index (Z.of_nat (length l)) (- Z.of_nat b)
               = Z.of_nat (length l - b)).
  { unfold slice_index. destruct (Z.ltb_spec (- Z.of_nat b) 0); lia. }
  rewrite Hi, Hj.
  replace (Z.to_nat (Z.of_nat (Nat.min a (length l)))) with (Nat.min a (length l)) by lia.
  replace (Z.to_nat (Z.of_nat (length l - b) - Z.of_nat (Nat.min a (length l))))
    with (length l - a - b)%nat by lia.
  destruct (Nat.le_gt_cases a (length l)) as [Hle|Hgt].
  - now rewrite Nat.min_l by exact Hle.
  - rewrite Nat.min_r by lia.
    rewrite !drop_ge by lia. now rewrite !take_nil.
Qed.

End StringFacts.

(** ** [strip] and the fences *)

Section StripFacts.

Import PyStr.

Lemma all_chars_forallb (p : ascii -> bool) (s : string) :
  all_chars p s = forallb p (list_ascii_of_string s).
Proof. induction s as [|c s IH]; simpl; [reflexivity | now rewrite IH]. Qed.

Lemma lstrip_pad (pad s : string) :
  all_chars isspace pad = true -> lstrip (pad ++ s) = lstrip s.
Proof.
  induction pad as [|c pad IH]; intros Hpad; [reflexivity|].
  simpl in Hpad. apply andb_prop in Hpad as [Hc Hpad].
  rewrite string_app_cons. simpl. rewrite Hc. now apply IH.
Qed.

Lemma rstrip_all_space (pad : string) :
  all_chars isspace pad = true -> rstrip pad = "".
Proof.
  induction pad as [|c pad IH]; intros Hpad; [reflexivity|].
  simpl in Hpad. apply andb_prop in Hpad as [Hc Hpad].
  simpl. rewrite (IH Hpad), Hc. reflexivity.
Qed.

Lemma rstrip_pad (s pad : string) :
  all_chars isspace pad = true -> rstrip (s ++ pad) = rstrip s.
Proof.
  intros Hpad. induction s as [|c s IH].
  - now apply rstrip_all_space.
  - rewrite string_app_cons. simpl. now rewrite IH.
Qed.

Lemma rstrip_ends_nonspace (s : string) (c : ascii) :
  isspace c = false -> rstrip (s ++ String c "") = s ++ String c "".
Proof.
  intros Hc. induction s as [|a s IH].
  - simpl. now rewrite Hc.
  - rewrite string_app_cons. simpl. rewrite IH.
    replace (is_empty (s ++ String c "")) with false by now destruct s.
    now rewrite andb_false_r.
Qed.

(** [strip] undoes a padding put around a text that starts and ends with
    characters that are not spaces. *)
Lemma strip_padded (pad1 pad2 s : string) (a z : ascii) :
  all_chars isspace pad1 = true -> all_chars isspace pad2 = true ->
  isspace a = false -> isspace z = false ->
  strip (pad1 ++ (String a s ++ String z "") ++ pad2)
  = String a s ++ String z "".
Proof.
  intros H1 H2 Ha Hz. unfold strip.
  rewrite lstrip_pad by exact H1.
  rewrite string_app_assoc, string_app_cons. simpl lstrip. rewrite Ha.
  rewrite <- string_app_cons, <- string_app_assoc.
  rewrite rstrip_pad by exact H2.
  now apply rstrip_ends_nonspace.
Qed.

Lemma startswith_fence_json (x : string) :
  startswith ("```" ++ x) "```json" = startswith x "json".
Proof. reflexivity. Qed.

Lemma json_ws_not_json_tag (c : ascii) (x : string) :
  json_ws c = true -> startswith (String c x) "json" = false.
Proof.
  destruct c as [[] [] [] [] [] [] [] []]; try discriminate; reflexivity.
Qed.

(** A reply that is a text between a fence and a closing fence, with
    spaces around: the text is what is left. *)
Lemma response_text_json_fence (pad1 pad2 m : string) :
  all_chars isspace pad1 = true -> all_chars isspace pad2 = true ->
  response_text_of (pad1 ++ "```json" ++ m ++ "```" ++ pad2) = m.
Proof.
  intros H1 H2. unfold response_text_of.
  replace (pad1 ++ "```json" ++ m ++ "```" ++ pad2)
    with (pad1 ++ (String "`" ("``json" ++ m ++ "``") ++ String "`" "") ++ pad2).
  2:{ f_equal. change "```json" with (String "`" "``json").
      rewrite !string_app_cons. simpl. f_equal.
      rewrite !string_app_assoc. reflexivity. }
  rewrite strip_padded by (assumption || reflexivity).
  replace (String "`" ("``json" ++ m ++ "``") ++ String "`" "")
    with ("```json" ++ m ++ "```").
  2:{ change "```json" with (String "`" "``json").
      rewrite !string_app_cons. f_equal. rewrite !string_app_assoc.
      reflexivity. }
  rewrite startswith_app.
  exact (slice_middle "```json" m "```" ltac:(simpl; lia)).
Qed.

Lemma response_text_bare_fence (pad1 pad2 m : string) :
  all_chars isspace pad1 = true -> all_chars isspace pad2 = true ->
  startswith (m ++ "```") "json" = false ->
  response_text_of (pad1 ++ "```" ++ m ++ "```" ++ pad2) = m.
Proof.
  intros H1 H2 Hm. unfold response_text_of.
  replace (pad1 ++ "```" ++ m ++ "```" ++ pad2)
    with (pad1 ++ (String "`" ("``" ++ m ++ "``") ++ String "`" "") ++ pad2).
  2:{ f_equal. change "```" with (String "`" "``") at 2.
      rewrite !string_app_cons. simpl. f_equal.
      rewrite !string_app_assoc. reflexivity. }
  rewrite strip_padded by (assumption || reflexivity).
  replace (String "`" ("``" ++ m ++ "``") ++ String "`" "")
    with ("```" ++ m ++ "```").
  2:{ change "```" with (String "`" "``") at 1.
      rewrite !string_app_cons. f_equal. rewrite !string_app_assoc.
      reflexivity. }
  rewrite startswith_fence_json.
  rewrite Hm.
  rewrite startswith_app.
  exact (slice_middle "```" m "```" ltac:(simpl; lia)).
Qed.

(** A text that starts with a brace is handed to the parser as it is, once
    the spaces around it are gone. *)
Lemma response_text_object (body : string) :
  response_text_of ("{" ++ body ++ "}") = "{" ++ body ++ "}".
Proof.
  unfold response_text_of.
  pose proof (strip_padded "" "" body "{" "}" eq_refl eq_refl eq_refl eq_refl)
    as H.
  rewrite string_app_nil_l, string_app_nil_r in H.
  replace ("{" ++ body ++ "}") with (String "{" body ++ String "}" "")
    by reflexivity.
  rewrite H. reflexivity.
Qed.

End StripFacts.

(** ** The reference JSON reader skips the whitespace around a value *)

Module ReferenceFacts.

Import Reference.
Local Open Scope list_scope.

Lemma skip_ws_pad (w l : list ascii) :
forallb json_ws w = true -> skip_ws (w ++ l) = skip_ws l.
Proof.
induction w as [|c w IH]; intros Hw; [reflexivity|].
simpl in Hw. apply andb_prop in Hw as [Hc Hw].
simpl. rewrite Hc. now apply IH.
Qed.

Lemma skip_ws_nil (l : list ascii) :
skip_ws l = [] -> forallb json_ws l = true.
Proof.
induction l as [|c l IH]; [reflexivity|]. simpl.
destruct (json_ws c); [exact IH | discriminate].
Qed.

Lemma skip_ws_app (l w : list ascii) :
skip_ws l <> [] -> skip_ws (l ++ w) = skip_ws l ++ w.
Proof.
induction l as [|c l IH]; intros Hl; [now destruct Hl|].
simpl in *. destruct (json_ws c); [now apply IH | reflexivity].
Qed.

Lemma forallb_reverse (p : ascii -> bool) (l : list ascii) :
forallb p (rev l) = forallb p l.
Proof.
induction l as [|c l IH]; [reflexivity|].
simpl. rewrite forallb_app, IH. simpl.
rewrite andb_true_r. apply andb_comm.
Qed.

Lemma trim_pad (w1 w2 l : list ascii) :
forallb json_ws w1 = true -> forallb json_ws w2 = true ->
trim (w1 ++ l ++ w2) = trim l.
Proof.
intros H1 H2. unfold trim. rewrite skip_ws_pad by exact H1.
destruct (skip_ws l) as [|c t] eqn:Hl.
- apply skip_ws_nil in Hl.
  rewrite <- (app_nil_r (l ++ w2)), skip_ws_pad; [reflexivity|].
  rewrite forallb_app, Hl, H2. reflexivity.
- rewrite skip_ws_app by (rewrite Hl; discriminate).
  rewrite Hl, rev_app_distr, skip_ws_pad; [reflexivity|].
  rewrite forallb_reverse. exact H2.
Qed.

Lemma loads_ws : JsonWhitespace externals.
Proof.
intros w1 w2 s H1 H2. simpl. unfold loads.
rewrite !list_ascii_app, trim_pad; [reflexivity| |].
- now rewrite <- all_chars_forallb.
- now rewrite <- all_chars_forallb.
Qed.

Lemma validators_keep_own_type : ValidatorsKeepOwnType externals.
Proof. split; reflexivity. Qed.

End ReferenceFacts.

(** ** What is handed to [json.loads] *)

Section Fences.

Import PyStr.

Context {X : Externals}.

(** C3. A reply that is a JSON object text between a [```json] or a bare
    [```] fence and a closing [```] fence (with JSON whitespace between the
    fences and the object, and any spaces around the whole) loses exactly
    the two fences before it is parsed, and [json.loads] gives for it what
    it gives for the object sent without fences. *)
Theorem fenced_object_parses_as_object {W : JsonWhitespace X}
    (pad1 pad2 w1 w2 body tag : string) :
  all_chars isspace pad1 = true -> all_chars isspace pad2 = true ->
  all_chars json_ws w1 = true -> all_chars json_ws w2 = true ->
  tag = "```json" \/ tag = "```" ->
  let object := "{" ++ body ++ "}" in
  let reply := pad1 ++ tag ++ (w1 ++ object ++ w2) ++ "```" ++ pad2 in
  response_text_of reply = w1 ++ object ++ w2
  /\ json_loads (response_text_of reply) = json_loads (response_text_of object).
Proof.
  intros Hp1 Hp2 Hw1 Hw2 Htag object reply.
  assert (Htext : response_text_of reply = w1 ++ object ++ w2).
  { subst reply. destruct Htag as [-> | ->].
    - now apply response_text_json_fence.
    - apply response_text_bare_fence; [assumption..|].
      destruct w1 as [|c w1].
      + reflexivity.
      + simpl in Hw1. apply andb_prop in Hw1 as [Hc _].
        rewrite !string_app_cons. now apply json_ws_not_json_tag. }
  split; [exact Htext|].
  rewrite Htext. subst object. rewrite response_text_object.
  now apply json_loads_ws.
Qed.

(** C9. When the reply, without the spaces around it, starts with
    [```json] (or else with [```]), the text handed to the parser is that
    reply without its first seven (or three) characters and without its
    last three, whether or not these three are a closing fence. *)
Theorem fence_cut_drops_last_three (response : string) :
  let text := strip response in
  (startswith text "```json" = true ->
   response_text_of response = drop_last 3 (drop_first 7 text))
  /\ (startswith text "```json" = false -> startswith text "```" = true ->
      response_text_of response = drop_last 3 (drop_first 3 text)).
Proof.
  intros text. unfold response_text_of. fold text. split.
  - intros ->. exact (slice_drop text 7 3 ltac:(lia)).
  - intros -> ->. exact (slice_drop text 3 3 ltac:(lia)).
Qed.

End Fences.

Lemma fenced_object_parses_as_object_witness :
  let object := "{" ++ quoted "timeline_weeks" ++ ": 1}" in
  @json_loads Reference.externals
    (response_text_of (" ```json" ++ nl ++ object ++ nl ++ "```" ++ nl))
  = Some (VDict {[ "timeline_weeks" := VInt 1 ]})
  /\ @json_loads Reference.externals
       (response_text_of (" ```json" ++ nl ++ object ++ nl ++ "```" ++ nl))
     = @json_loads Reference.externals (response_text_of object).
Proof.
  split; [reflexivity|].
  exact (proj2 (@fenced_object_parses_as_object Reference.externals
                  ReferenceFacts.loads_ws " " nl nl nl
                  (quoted "timeline_weeks" ++ ": 1") "```json"
                  eq_refl eq_refl eq_refl eq_refl (or_introl eq_refl))).
Defined.

Lemma fence_cut_drops_last_three_witness :
  response_text_of ("```json[1, 2, 3]" ++ nl) = "[1, 2,"
  /\ response_text_of "```[1, 2]" = "[1,".
Proof.
  split.
  - exact (eq_trans
             (proj1 (fence_cut_drops_last_three ("```json[1, 2, 3]" ++ nl))
                    eq_refl)
             eq_refl).
  - exact (eq_trans
             (proj2 (fence_cut_drops_last_three "```[1, 2]") eq_refl eq_refl)
             eq_refl).
Defined.

(** ** The prompt *)

Section Prompt.

Import PyStr.

Lemma contains_skip (x s t : string) : contains s t -> contains (x ++ s) t.
Proof.
  intros (a & b & ->). exists (x ++ a), b. now rewrite string_app_assoc.
Qed.

(** A line of the template: a closed text [indent ++ label], the field,
    and the rest. *)
Lemma contains_labelled (indent label field rest : string) :
  contains ((indent ++ label) ++ field ++ rest) (label ++ field).
Proof. exists indent, rest. now rewrite !string_app_assoc. Qed.

Ltac labelled_field indent label :=
  unfold planning_prompt;
  repeat first
    [ exact (contains_labelled indent label _ _)
    | apply contains_skip ].

(** C7. The prompt built from a requirements record holds, each after its
    label, the title, the description, the business context, the success
    criteria, the constraints, the stakeholders, the timeline preference and
    the budget range of the record; when the record has no budget range the
    text [Not specified] stands after the budget label. *)
Theorem prompt_embeds_every_field (r : ProjectRequirements.t) :
  let p := planning_prompt r in
  contains p ("- Title: " ++ ProjectRequirements.title r)
  /\ contains p ("- Description: " ++ ProjectRequirements.description r)
  /\ contains p
       ("- Business Context: " ++ ProjectRequirements.business_context r)
  /\ contains p
       ("- Success Criteria: " ++ ProjectRequirements.success_criteria r)
  /\ contains p ("- Constraints: " ++ ProjectRequirements.constraints r)
  /\ contains p ("- Stakeholders: " ++ ProjectRequirements.stakeholders r)
  /\ contains p
       ("- Timeline Preference: "
          ++ ProjectRequirements.timeline_preference r)
  /\ match ProjectRequirements.budget_range r with
     | Some budget => contains p ("- Budget Range: " ++ budget)
     | None => contains p ("- Budget Range: " ++ "Not specified")
     end.
Proof.
  intros p. subst p. repeat split.
  - exact (contains_labelled
             (nl ++ "    AUTONOMOUS PROJECT PLANNING REQUEST" ++ nl ++ nl
                 ++ "    PROJECT DETAILS:" ++ nl ++ "    ")
             "- Title: " _ _).
  - labelled_field (nl ++ "    ") "- Description: ".
  - labelled_field (nl ++ "    ") "- Business Context: ".
  - labelled_field (nl ++ "    ") "- Success Criteria: ".
  - labelled_field (nl ++ "    ") "- Constraints: ".
  - labelled_field (nl ++ "    ") "- Stakeholders: ".
  - labelled_field (nl ++ "    ") "- Timeline Preference: ".
  - destruct (ProjectRequirements.budget_range r) as [budget|] eqn:Hb.
    + destruct budget as [|c budget].
      * unfold planning_prompt. rewrite Hb.
        do 14 apply contains_skip.
        exists (nl ++ "    "), ("Not specified" ++ prompt_tail).
        reflexivity.
      * unfold planning_prompt. rewrite Hb.
        labelled_field (nl ++ "    ") "- Budget Range: ".
    + unfold planning_prompt. rewrite Hb.
      labelled_field (nl ++ "    ") "- Budget Range: ".
Qed.

End Prompt.

(** ** The store *)

Section CollectionFacts.

Import Collection.

Lemma find_one_none (x : string) (coll : list document) :
  (forall d, d ∈ coll -> matches_id x d = false) -> find_one x coll = None.
Proof.
  unfold find_one. induction coll as [|d coll IH]; intros H; [reflexivity|].
  simpl. rewrite (H d) by apply list_elem_of_here.
  apply IH. intros d' Hd'. apply H. now apply list_elem_of_further.
Qed.

(** The same premise, as a test that can be run on a given collection. *)
Lemma no_match_forallb (x : string) (coll : list document) :
  forallb (fun d => negb (matches_id x d)) coll = true ->
  forall d, d ∈ coll -> matches_id x d = false.
Proof.
  intros H d Hd. rewrite forallb_forall in H.
  apply list_elem_of_In in Hd. apply H in Hd.
  now apply negb_true_iff in Hd.
Qed.

Lemma find_one_elem (x : string) (coll : list document) (d : document) :
  find_one x coll = Some d -> d ∈ coll /\ matches_id x d = true.
Proof.
  unfold find_one. intros H. apply find_some in H as [Hin Hm].
  split; [now apply list_elem_of_In | exact Hm].
Qed.

(** A document inserted under an identifier that no older document has is
    the one [find_one] gives for it. *)
Lemma find_one_inserted (x : string) (coll : list document) (d : document) :
  (forall d', d' ∈ coll -> matches_id x d' = false) ->
  matches_id x d = true ->
  find_one x (coll ++ [d]) = Some d.
Proof.
  unfold find_one. induction coll as [|d0 coll IH]; intros Hfresh Hd.
  - simpl. now rewrite Hd.
  - simpl. rewrite (Hfresh d0) by apply list_elem_of_here.
    apply IH; [|exact Hd].
    intros d' Hd'. apply Hfresh. now apply list_elem_of_further.
Qed.

Lemma with_object_id_has_id (oid : N) (doc : document) :
  is_Some (with_object_id oid doc !! "_id").
Proof.
  unfold with_object_id. destruct (doc !! "_id") as [v|] eqn:H.
  - rewrite H. eauto.
  - rewrite lookup_insert_eq. eauto.
Qed.

Lemma inserted_has_id (oid : N) (doc : document) :
  is_Some ((bson <$> with_object_id oid doc) !! "_id").
Proof.
  rewrite lookup_fmap.
  destruct (with_object_id_has_id oid doc) as [v ->]. simpl. eauto.
Qed.

Lemma with_object_id_other (oid : N) (doc : document) (key : string) :
  key <> "_id" -> with_object_id oid doc !! key = doc !! key.
Proof.
  intros Hk. unfold with_object_id.
  destruct (doc !! "_id"); [reflexivity|].
  now rewrite lookup_insert_ne.
Qed.

(** What a stored document holds under a key other than [_id]. *)
Lemma inserted_lookup (oid : N) (doc : document) (key : string) :
  key <> "_id" ->
  (bson <$> with_object_id oid doc) !! key = bson <$> (doc !! key).
Proof. intros Hk. now rewrite lookup_fmap, with_object_id_other. Qed.

End CollectionFacts.

(** ** The routes *)

Section Routes.

Context {X : Externals}.

(** C6. In every state of the store, the listing of plans and the listing
    of requirements hold at most 100 items each, and no item of the
    listing of requirements has an [_id] field. *)
Theorem listings_bounded_and_stripped (w : world) :
  (length (get_all_project_plans w) <= 100)%nat
  /\ (length (get_all_project_requirements w) <= 100)%nat
  /\ forall req : document,
       req ∈ get_all_project_requirements w -> req !! "_id" = None.
Proof.
  unfold get_all_project_plans, get_all_project_requirements,
    Collection.to_list.
  repeat split.
  - rewrite length_take. lia.
  - rewrite length_fmap, length_take. lia.
  - intros req Hreq. apply list_elem_of_fmap in Hreq as (d & -> & _).
    apply lookup_delete_eq.
Qed.

(** C4. When no stored requirements document has the identifier of the
    request, plan generation answers 404, sends nothing to the model and
    leaves both collections as they were. *)
Theorem generate_plan_unknown_requirements
    (e : env) (requirements_id : string) (w : world) :
  (forall d : document,
     d ∈ project_requirements w ->
     Collection.matches_id requirements_id d = false) ->
  status_code_of (fst (generate_plan e requirements_id w)) = 404
  /\ sent_messages (snd (generate_plan e requirements_id w)) = sent_messages w
  /\ project_requirements (snd (generate_plan e requirements_id w))
     = project_requirements w
  /\ project_plans (snd (generate_plan e requirements_id w)) = project_plans w.
Proof.
  intros Hnone. unfold generate_plan.
  rewrite (find_one_none _ _ Hnone). simpl. repeat split.
Qed.

(** C2. When the requirements exist, the model is called and what is left
    of its reply after the spaces and the fences are cut is not JSON, plan
    generation answers 500 and the collection of plans (as the one of
    requirements) is what it was before the request. *)
Theorem generate_plan_unparseable_reply
    (e : env) (requirements_id : string) (w : world)
    (requirements_doc : document) (requirements : ProjectRequirements.t)
    (chat : LlmChat) (response : string) :
  Collection.find_one requirements_id (project_requirements w)
    = Some requirements_doc ->
  ProjectRequirements.make (UUID.str (UUID.uuid4 (urandom_id e))) (utcnow e)
                           requirements_doc = Return requirements ->
  get_gemini_chat e = Return chat ->
  send_message e chat (planning_prompt requirements) = Return response ->
  json_loads (response_text_of response) = None ->
  status_code_of (fst (generate_plan e requirements_id w)) = 500
  /\ project_plans (snd (generate_plan e requirements_id w)) = project_plans w
  /\ project_requirements (snd (generate_plan e requirements_id w))
     = project_requirements w.
Proof.
  intros Hfind Hmake Hchat Hsend Hloads.
  unfold generate_plan, generate_project_plan.
  rewrite Hfind, Hmake, Hchat, Hsend, Hloads. simpl. repeat split.
Qed.

End Routes.

(** ** Building a plan from the reply *)

Section PlanFacts.

Context {X : Externals}.

Lemma bind_Return_inv {A B : Type} (m : result A) (f : A -> result B) (b : B) :
  (a ← m; f a) = Return b -> exists a : A, m = Return a /\ f a = Return b.
Proof. destruct m as [a|x]; [eauto | discriminate]. Qed.







End PlanFacts.

Section Generation.

Context {X : Externals}.


End Generation.

(** ** The theorems on the example run *)

Lemma generate_plan_unknown_requirements_witness :
  status_code_of
    (fst (@generate_plan Reference.externals
            (SampleRun.env_generate SampleRun.plan_json) "no-such-id"
            SampleRun.world_posted)) = 404
  /\ sent_messages
       (snd (@generate_plan Reference.externals
               (SampleRun.env_generate SampleRun.plan_json) "no-such-id"
               SampleRun.world_posted))
     = sent_messages SampleRun.world_posted.
Proof.
  destruct (@generate_plan_unknown_requirements Reference.externals
              (SampleRun.env_generate SampleRun.plan_json) "no-such-id"
              SampleRun.world_posted
              (no_match_forallb "no-such-id"
                 (project_requirements SampleRun.world_posted)
                 ltac:(vm_compute; reflexivity)))
    as (H404 & Hsent & _).
  split; [exact H404 | exact Hsent].
Defined.

Lemma generate_plan_unparseable_reply_witness :
  status_code_of
    (fst (@generate_plan Reference.externals
            (SampleRun.env_generate "Here is your plan.")
            SampleRun.requirements_id SampleRun.world_posted)) = 500
  /\ project_plans
       (snd (@generate_plan Reference.externals
               (SampleRun.env_generate "Here is your plan.")
               SampleRun.requirements_id SampleRun.world_posted))
     = project_plans SampleRun.world_posted.
Proof.
  destruct (@generate_plan_unparseable_reply Reference.externals
              (SampleRun.env_generate "Here is your plan.")
              SampleRun.requirements_id SampleRun.world_posted
              SampleRun.requirements_doc SampleRun.stored SampleRun.chat
              "Here is your plan."
              ltac:(vm_compute; reflexivity) ltac:(vm_compute; reflexivity)
              ltac:(vm_compute; reflexivity) ltac:(vm_compute; reflexivity)
              ltac:(vm_compute; reflexivity))
    as (H500 & Hplans & _).
  split; [exact H500 | exact Hplans].
Defined.


(** ** Requirements: what is posted is what is read *)

Section Intake.

Context {X : Externals}.

Lemma uuid_str_length (u : N) : String.length (UUID.str u) = 36%nat.
Proof. reflexivity. Qed.

Lemma uuid_str_not_empty (u : N) : UUID.str u <> "".
Proof.
  intros H. pose proof (uuid_str_length u) as L. rewrite H in L.
  discriminate L.
Qed.

(** The keyword arguments of the POST, key by key. *)
Lemma create_dict_lookup (i : ProjectRequirementsCreate.t) :
  let d := ProjectRequirementsCreate.dict i in
  d !! "id" = None /\ d !! "created_at" = None
  /\ d !! "title" = Some (VStr (ProjectRequirementsCreate.title i))
  /\ d !! "description" = Some (VStr (ProjectRequirementsCreate.description i))
  /\ d !! "business_context"
     = Some (VStr (ProjectRequirementsCreate.business_context i))
  /\ d !! "success_criteria"
     = Some (VStr (ProjectRequirementsCreate.success_criteria i))
  /\ d !! "constraints" = Some (VStr (ProjectRequirementsCreate.constraints i))
  /\ d !! "stakeholders"
     = Some (VStr (ProjectRequirementsCreate.stakeholders i))
  /\ d !! "timeline_preference"
     = Some (VStr (ProjectRequirementsCreate.timeline_preference i))
  /\ d !! "budget_range"
     = Some (of_option_str (ProjectRequirementsCreate.budget_range i)).
Proof. repeat split. Qed.

(** The document of a requirements record, key by key. *)
Lemma requirements_dict_lookup (r : ProjectRequirements.t) :
  let d := ProjectRequirements.dict r in
  d !! "id" = Some (VStr (ProjectRequirements.id r))
  /\ d !! "created_at" = Some (VDatetime (ProjectRequirements.created_at r))
  /\ d !! "title" = Some (VStr (ProjectRequirements.title r))
  /\ d !! "description" = Some (VStr (ProjectRequirements.description r))
  /\ d !! "business_context"
     = Some (VStr (ProjectRequirements.business_context r))
  /\ d !! "success_criteria"
     = Some (VStr (ProjectRequirements.success_criteria r))
  /\ d !! "constraints" = Some (VStr (ProjectRequirements.constraints r))
  /\ d !! "stakeholders" = Some (VStr (ProjectRequirements.stakeholders r))
  /\ d !! "timeline_preference"
     = Some (VStr (ProjectRequirements.timeline_preference r))
  /\ d !! "budget_range"
     = Some (of_option_str (ProjectRequirements.budget_range r)).
Proof. repeat split. Qed.

Lemma optional_str (V : ValidatorsKeepOwnType X) (d : document)
    (key : string) (o : option string) :
  d !! key = Some (of_option_str o) -> optional str_validator d key = Return o.
Proof.
  intros H. unfold optional. rewrite H.
  destruct o as [s|]; simpl; [|reflexivity].
  now rewrite str_validator_str.
Qed.

Lemma required_str (V : ValidatorsKeepOwnType X) (d : document)
    (key s : string) :
  d !! key = Some (VStr s) -> required str_validator d key = Return s.
Proof.
  intros H. unfold required. now rewrite H, str_validator_str.
Qed.

(** The record that the POST builds from a payload. *)
Lemma make_of_payload (V : ValidatorsKeepOwnType X) (new_id : string)
    (now : Z) (i : ProjectRequirementsCreate.t) :
  ProjectRequirements.make new_id now (ProjectRequirementsCreate.dict i)
  = Return
      {| ProjectRequirements.id := new_id;
         ProjectRequirements.title := ProjectRequirementsCreate.title i;
         ProjectRequirements.description :=
           ProjectRequirementsCreate.description i;
         ProjectRequirements.business_context :=
           ProjectRequirementsCreate.business_context i;
         ProjectRequirements.success_criteria :=
           ProjectRequirementsCreate.success_criteria i;
         ProjectRequirements.constraints :=
           ProjectRequirementsCreate.constraints i;
         ProjectRequirements.stakeholders :=
           ProjectRequirementsCreate.stakeholders i;
         ProjectRequirements.timeline_preference :=
           ProjectRequirementsCreate.timeline_preference i;
         ProjectRequirements.budget_range :=
           ProjectRequirementsCreate.budget_range i;
         ProjectRequirements.created_at := now |}.
Proof.
  destruct (create_dict_lookup i)
    as (Hid & Hat & Ht & Hd & Hb & Hs & Hc & Hk & Hp & Hr).
  unfold ProjectRequirements.make, defaulted.
  rewrite Hid, Hat.
  rewrite (required_str V _ _ _ Ht), (required_str V _ _ _ Hd),
    (required_str V _ _ _ Hb), (required_str V _ _ _ Hs),
    (required_str V _ _ _ Hc), (required_str V _ _ _ Hk),
    (required_str V _ _ _ Hp), (optional_str V _ _ _ Hr).
  reflexivity.
Qed.

Lemma bson_option_str (o : option string) :
  Collection.bson (of_option_str o) = of_option_str o.
Proof. now destruct o. Qed.

(** The record built from the stored document of a record: the same, with
    the time of creation to the millisecond. *)
Lemma make_of_stored (V : ValidatorsKeepOwnType X) (new_id : string)
    (now : Z) (oid : N) (r : ProjectRequirements.t) :
  ProjectRequirements.make new_id now
    (Collection.bson
       <$> Collection.with_object_id oid (ProjectRequirements.dict r))
  = Return
      {| ProjectRequirements.id := ProjectRequirements.id r;
         ProjectRequirements.title := ProjectRequirements.title r;
         ProjectRequirements.description := ProjectRequirements.description r;
         ProjectRequirements.business_context :=
           ProjectRequirements.business_context r;
         ProjectRequirements.success_criteria :=
           ProjectRequirements.success_criteria r;
         ProjectRequirements.constraints := ProjectRequirements.constraints r;
         ProjectRequirements.stakeholders :=
           ProjectRequirements.stakeholders r;
         ProjectRequirements.timeline_preference :=
           ProjectRequirements.timeline_preference r;
         ProjectRequirements.budget_range :=
           ProjectRequirements.budget_range r;
         ProjectRequirements.created_at :=
           1000 * (ProjectRequirements.created_at r / 1000) |}.
Proof.
  destruct (requirements_dict_lookup r)
    as (Hid & Hat & Ht & Hd & Hb & Hs & Hc & Hk & Hp & Hr).
  set (stored := Collection.bson
                   <$> Collection.with_object_id oid
                         (ProjectRequirements.dict r)).
  assert (L : forall key v, key <> "_id" ->
                ProjectRequirements.dict r !! key = Some v ->
                stored !! key = Some (Collection.bson v)).
  { intros key v Hk' Hv. subst stored.
    rewrite inserted_lookup by exact Hk'. now rewrite Hv. }
  unfold ProjectRequirements.make, defaulted.
  rewrite (L "id" _ ltac:(discriminate) Hid).
  rewrite (L "created_at" _ ltac:(discriminate) Hat).
  simpl Collection.bson.
  rewrite str_validator_str, datetime_validator_datetime.
  rewrite (required_str V _ _ _ (L "title" _ ltac:(discriminate) Ht)),
    (required_str V _ _ _ (L "description" _ ltac:(discriminate) Hd)),
    (required_str V _ _ _ (L "business_context" _ ltac:(discriminate) Hb)),
    (required_str V _ _ _ (L "success_criteria" _ ltac:(discriminate) Hs)),
    (required_str V _ _ _ (L "constraints" _ ltac:(discriminate) Hc)),
    (required_str V _ _ _ (L "stakeholders" _ ltac:(discriminate) Hk)),
    (required_str V _ _ _ (L "timeline_preference" _ ltac:(discriminate) Hp)).
  pose proof (L "budget_range" _ ltac:(discriminate) Hr) as Hr'.
  rewrite bson_option_str in Hr'.
  rewrite (optional_str V _ _ _ Hr').
  reflexivity.
Qed.

(** C5. When the identifier drawn for a POST of requirements is not that
    of a document already stored, the POST returns a record and a GET by
    the identifier of that record returns a record with the same title,
    description, business context, success criteria, constraints,
    stakeholders, timeline preference and budget range as the payload, with
    the same identifier, which is not empty, and with the time of the POST,
    to the millisecond, as its time of creation. *)
Theorem post_then_get_requirements {V : ValidatorsKeepOwnType X}
    (e e' : env) (input : ProjectRequirementsCreate.t) (w : world) :
  (forall d : document,
     d ∈ project_requirements w ->
     Collection.matches_id (UUID.str (UUID.uuid4 (urandom_id e))) d = false) ->
  exists posted got : ProjectRequirements.t,
    fst (create_project_requirements e input w) = Return posted
    /\ get_project_requirements e' (ProjectRequirements.id posted)
         (snd (create_project_requirements e input w)) = Return got
    /\ ProjectRequirements.title got = ProjectRequirementsCreate.title input
    /\ ProjectRequirements.description got
       = ProjectRequirementsCreate.description input
    /\ ProjectRequirements.business_context got
       = ProjectRequirementsCreate.business_context input
    /\ ProjectRequirements.success_criteria got
       = ProjectRequirementsCreate.success_criteria input
    /\ ProjectRequirements.constraints got
       = ProjectRequirementsCreate.constraints input
    /\ ProjectRequirements.stakeholders got
       = ProjectRequirementsCreate.stakeholders input
    /\ ProjectRequirements.timeline_preference got
       = ProjectRequirementsCreate.timeline_preference input
    /\ ProjectRequirements.budget_range got
       = ProjectRequirementsCreate.budget_range input
    /\ ProjectRequirements.id got = ProjectRequirements.id posted
    /\ ProjectRequirements.id posted <> ""
    /\ ProjectRequirements.created_at posted = utcnow e
    /\ ProjectRequirements.created_at got = 1000 * (utcnow e / 1000).
Proof.
  intros Hfresh.
  unfold create_project_requirements.
  rewrite (make_of_payload V). simpl fst. simpl snd.
  eexists. eexists. split; [reflexivity|].
  unfold get_project_requirements, Collection.insert_one.
  simpl project_requirements. simpl ProjectRequirements.id.
  rewrite find_one_inserted; [|exact Hfresh|].
  - rewrite (make_of_stored V). split; [reflexivity|]. simpl.
    repeat split. apply uuid_str_not_empty.
  - unfold Collection.matches_id.
    rewrite inserted_lookup by discriminate. simpl.
    apply String.eqb_refl.
Qed.

End Intake.

Lemma post_then_get_requirements_witness :
  exists posted got : ProjectRequirements.t,
    fst (@create_project_requirements Reference.externals SampleRun.env_post
           SampleRun.sample_project empty_world) = Return posted
    /\ @get_project_requirements Reference.externals
         (SampleRun.env_generate "") (ProjectRequirements.id posted)
         SampleRun.world_posted = Return got
    /\ ProjectRequirements.title got = "E-commerce Platform Development"
    /\ ProjectRequirements.id got = "01234567-89ab-4def-8123-456789abcdef".
Proof.
  destruct (@post_then_get_requirements Reference.externals
              ReferenceFacts.validators_keep_own_type SampleRun.env_post
              (SampleRun.env_generate "") SampleRun.sample_project empty_world
              (no_match_forallb _ [] eq_refl))
    as (posted & got & Hpost & Hget & Ht & _ & _ & _ & _ & _ & _ & _ & Hid
        & _).
  exists posted, got. split; [exact Hpost|]. split; [exact Hget|].
  split; [exact Ht|].
  rewrite Hid. apply (f_equal (fun r => match r with
                                        | Return x => ProjectRequirements.id x
                                        | Raise _ => ""
                                        end)) in Hpost.
  simpl in Hpost. rewrite <- Hpost. vm_compute. reflexivity.
Defined.

(** ** The life of a document: inserted once, read for ever *)

Section Lifecycle.

Context {X : Externals}.

Local Open Scope list_scope.

(** The record built from a payload has the identifier drawn for the
    request, whatever the validators are. *)
Lemma make_of_payload_id (new_id : string) (now : Z)
    (i : ProjectRequirementsCreate.t) (r : ProjectRequirements.t) :
  ProjectRequirements.make new_id now (ProjectRequirementsCreate.dict i)
    = Return r ->
  ProjectRequirements.id r = new_id.
Proof.
  destruct (create_dict_lookup i) as (Hid & Hat & _).
  unfold ProjectRequirements.make, defaulted. rewrite Hid, Hat.
  intros H.
  apply bind_Return_inv in H as (x0 & H0 & H). inversion H0; subst x0.
  do 9 (apply bind_Return_inv in H as (? & _ & H)).
  injection H as <-. reflexivity.
Qed.

Lemma project_plan_of_id (e : env) (requirements_id : string)
    (plan_data : value) (plan : ProjectPlan.t) :
  project_plan_of e requirements_id plan_data = Return plan ->
  ProjectPlan.id plan = UUID.str (UUID.uuid4 (urandom_id e)).
Proof.
  unfold project_plan_of, ProjectPlan.make. intros H.
  do 13 (apply bind_Return_inv in H as (? & _ & H)).
  injection H as <-. reflexivity.
Qed.

Lemma generate_project_plan_store (e : env) (r : ProjectRequirements.t)
    (w : world) :
  project_requirements (snd (generate_project_plan e r w))
    = project_requirements w
  /\ project_plans (snd (generate_project_plan e r w)) = project_plans w.
Proof.
  unfold generate_project_plan.
  destruct (get_gemini_chat e) as [chat|x]; [|now split].
  destruct (send_message e chat (planning_prompt r)) as [response|x];
    [|now split].
  destruct (json_loads (response_text_of response)); now split.
Qed.

Lemma inserted_by_insert (e : env) (doc : document) (new_id : string) :
  doc !! "id" = Some (VStr new_id) ->
  new_id = UUID.str (UUID.uuid4 (urandom_id e)) ->
  inserted_by e
    (Collection.bson <$> Collection.with_object_id (ObjectId e) doc).
Proof.
  intros Hdoc ->. split.
  - rewrite inserted_lookup by discriminate. now rewrite Hdoc.
  - apply inserted_has_id.
Qed.

(** One request leaves each collection as it was or appends one document
    to it. *)
Lemma handle_appends (e : env) (req : request) (w : world) :
  exists added_requirements added_plans : list document,
    project_requirements (snd (handle e req w))
      = project_requirements w ++ added_requirements
    /\ project_plans (snd (handle e req w)) = project_plans w ++ added_plans
    /\ Forall (inserted_by e) added_requirements
    /\ Forall (inserted_by e) added_plans.
Proof.
  assert (Same : forall w0 : world,
            project_requirements w0 = project_requirements w ->
            project_plans w0 = project_plans w ->
            exists added_requirements added_plans : list document,
              project_requirements w0
                = project_requirements w ++ added_requirements
              /\ project_plans w0 = project_plans w ++ added_plans
              /\ Forall (inserted_by e) added_requirements
              /\ Forall (inserted_by e) added_plans).
  { intros w0 Hr Hp. exists [], []. rewrite !app_nil_r. now repeat split. }
  destruct req as [|input|rid|rid|pid| |]; simpl;
    try (now apply Same).
  - (* POST /project-requirements *)
    unfold create_project_requirements.
    destruct (ProjectRequirements.make _ _ _) as [r|x] eqn:Hmake;
      [|now apply Same].
    simpl. unfold Collection.insert_one.
    exists [Collection.bson
              <$> Collection.with_object_id (ObjectId e)
                    (ProjectRequirements.dict r)], [].
    split; [reflexivity|]. split; [now rewrite app_nil_r|].
    split; [|constructor].
    constructor; [|constructor].
    apply (inserted_by_insert e _ (ProjectRequirements.id r)).
    + now destruct (requirements_dict_lookup r) as (Hid & _).
    + exact (make_of_payload_id _ _ _ _ Hmake).
  - (* POST /generate-plan/{id} *)
    unfold generate_plan.
    destruct (Collection.find_one rid (project_requirements w));
      [|now apply Same].
    destruct (ProjectRequirements.make _ _ _) as [r|x]; [|now apply Same].
    destruct (generate_project_plan_store e r w) as [Hr Hp].
    destruct (generate_project_plan e r w) as [generated w'].
    simpl in Hr, Hp.
    destruct generated as [plan_data|x]; simpl;
      [|now apply Same].
    destruct (project_plan_of e rid plan_data) as [plan|x] eqn:Hplan; simpl;
      [|now apply Same].
    unfold Collection.insert_one. rewrite Hr, Hp.
    exists [], [Collection.bson
                  <$> Collection.with_object_id (ObjectId e)
                        (ProjectPlan.dict plan)].
    split; [now rewrite app_nil_r|]. split; [reflexivity|].
    split; [constructor|].
    constructor; [|constructor].
    apply (inserted_by_insert e _ (ProjectPlan.id plan)).
    + reflexivity.
    + exact (project_plan_of_id _ _ _ _ Hplan).
Qed.

(** The effect of a sequence of requests on the two collections. *)
Lemma run_appends (ops : list (env * request)) :
  forall w : world,
    let inserted (d : document) :=
      exists (e : env) (req : request), (e, req) ∈ ops /\ inserted_by e d in
    exists added_requirements added_plans : list document,
      project_requirements (run ops w)
        = project_requirements w ++ added_requirements
      /\ project_plans (run ops w) = project_plans w ++ added_plans
      /\ Forall inserted added_requirements
      /\ Forall inserted added_plans.
Proof.
  induction ops as [|[e req] ops IH]; intros w inserted.
  - exists [], []. simpl. rewrite !app_nil_r. now repeat split.
  - simpl run.
    destruct (handle_appends e req w) as (r1 & p1 & Hr1 & Hp1 & Fr1 & Fp1).
    destruct (IH (snd (handle e req w))) as (r2 & p2 & Hr2 & Hp2 & Fr2 & Fp2).
    exists (r1 ++ r2), (p1 ++ p2).
    rewrite Hr2, Hp2, Hr1, Hp1, <- !app_assoc.
    split; [reflexivity|]. split; [reflexivity|].
    assert (Hhead : forall d, inserted_by e d -> inserted d).
    { intros d Hd. exists e, req. split; [apply list_elem_of_here | exact Hd]. }
    assert (Htail : forall d,
              (exists e0 req0, (e0, req0) ∈ ops /\ inserted_by e0 d) ->
              inserted d).
    { intros d (e0 & req0 & Hin & Hd). exists e0, req0.
      split; [now apply list_elem_of_further | exact Hd]. }
    split; apply Forall_app; split;
      solve [ eapply Forall_impl; [eassumption | exact Hhead]
            | eapply Forall_impl; [eassumption | exact Htail] ].
Qed.

(** C8. Whatever the requests of a sequence and their environments are,
    each collection after the sequence is the collection before it followed
    by new documents: a document that was stored before is still there, at
    the same place and unchanged, and every new document was inserted by
    one of the requests, under the identifier drawn for that request. *)
Theorem store_is_append_only (ops : list (env * request)) (w : world) :
  let inserted (d : document) :=
    exists (e : env) (req : request), (e, req) ∈ ops /\ inserted_by e d in
  (exists added : list document,
     project_requirements (run ops w) = project_requirements w ++ added
     /\ Forall inserted added)
  /\ (exists added : list document,
        project_plans (run ops w) = project_plans w ++ added
        /\ Forall inserted added)
  /\ (forall (i : nat) (d : document),
        project_requirements w !! i = Some d ->
        project_requirements (run ops w) !! i = Some d)
  /\ (forall (i : nat) (d : document),
        project_plans w !! i = Some d ->
        project_plans (run ops w) !! i = Some d).
Proof.
  intros inserted.
  destruct (run_appends ops w) as (ar & ap & Hr & Hp & Fr & Fp).
  split; [exists ar; now split|]. split; [exists ap; now split|].
  split; intros i d Hd.
  - rewrite Hr. now apply lookup_app_l_Some.
  - rewrite Hp. now apply lookup_app_l_Some.
Qed.



End Lifecycle.

(** ** Failures of plan generation *)

Section GenerationFailures.

Context {X : Externals}.

Local Open Scope list_scope.

(** X1. When the requirements are stored but the API key is missing or
    empty, plan generation answers 500 and leaves the world as it was: no
    message goes to the model and nothing is stored. *)
Theorem generate_plan_without_api_key
    (e : env) (requirements_id : string) (w : world)
    (requirements_doc : document) (requirements : ProjectRequirements.t) :
  Collection.find_one requirements_id (project_requirements w)
    = Some requirements_doc ->
  ProjectRequirements.make (UUID.str (UUID.uuid4 (urandom_id e))) (utcnow e)
                           requirements_doc = Return requirements ->
  GEMINI_API_KEY e = None \/ GEMINI_API_KEY e = Some "" ->
  status_code_of (fst (generate_plan e requirements_id w)) = 500
  /\ snd (generate_plan e requirements_id w) = w.
Proof.
  intros Hfind Hmake Hkey.
  unfold generate_plan, generate_project_plan, get_gemini_chat.
  rewrite Hfind, Hmake.
  destruct Hkey as [-> | ->]; simpl; now split.
Qed.

(** X2. When the call to the model raises, plan generation answers 500;
    the prompt is the one message that was sent, and both collections are
    as they were. *)
Theorem generate_plan_model_call_fails
    (e : env) (requirements_id : string) (w : world)
    (requirements_doc : document) (requirements : ProjectRequirements.t)
    (chat : LlmChat) (x : exn) :
  Collection.find_one requirements_id (project_requirements w)
    = Some requirements_doc ->
  ProjectRequirements.make (UUID.str (UUID.uuid4 (urandom_id e))) (utcnow e)
                           requirements_doc = Return requirements ->
  get_gemini_chat e = Return chat ->
  send_message e chat (planning_prompt requirements) = Raise x ->
  status_code_of (fst (generate_plan e requirements_id w)) = 500
  /\ sent_messages (snd (generate_plan e requirements_id w))
     = sent_messages w ++ [(chat, planning_prompt requirements)]
  /\ project_requirements (snd (generate_plan e requirements_id w))
     = project_requirements w
  /\ project_plans (snd (generate_plan e requirements_id w)) = project_plans w.
Proof.
  intros Hfind Hmake Hchat Hsend.
  unfold generate_plan, generate_project_plan.
  rewrite Hfind, Hmake, Hchat, Hsend. simpl. now repeat split.
Qed.

(** X3. When the reply parses but the plan cannot be built from it (a key
    is missing, an item has not the fields of its model, a value has not
    the type of its field), plan generation answers 500 with the text of
    the exception after a fixed prefix; one message was sent and both
    collections are as they were. *)
Theorem generate_plan_reply_off_schema
    (e : env) (requirements_id : string) (w : world)
    (requirements_doc : document) (requirements : ProjectRequirements.t)
    (chat : LlmChat) (response : string) (plan_data : value) (x : exn) :
  Collection.find_one requirements_id (project_requirements w)
    = Some requirements_doc ->
  ProjectRequirements.make (UUID.str (UUID.uuid4 (urandom_id e))) (utcnow e)
                           requirements_doc = Return requirements ->
  get_gemini_chat e = Return chat ->
  send_message e chat (planning_prompt requirements) = Return response ->
  json_loads (response_text_of response) = Some plan_data ->
  project_plan_of e requirements_id plan_data = Raise x ->
  fst (generate_plan e requirements_id w)
    = Raise (HTTPException 500
               ("Failed to generate project plan: " ++ str_of_exn x)%string)
  /\ sent_messages (snd (generate_plan e requirements_id w))
     = sent_messages w ++ [(chat, planning_prompt requirements)]
  /\ project_requirements (snd (generate_plan e requirements_id w))
     = project_requirements w
  /\ project_plans (snd (generate_plan e requirements_id w)) = project_plans w.
Proof.
  intros Hfind Hmake Hchat Hsend Hloads Hplan.
  unfold generate_plan, generate_project_plan.
  rewrite Hfind, Hmake, Hchat, Hsend, Hloads. simpl. rewrite Hplan.
  now repeat split.
Qed.

(** X4. Whatever exception plan generation raises, it is the 404 of the
    unknown identifier, or the exception that the stored document raised
    when the requirements record was built from it, or a 500 whose detail
    is the fixed prefix followed by the text of the exception caught: the
    messages of the inner failures never reach the client on their own. *)
Theorem generate_plan_failures
    (e : env) (requirements_id : string) (w : world) (x : exn) :
  fst (generate_plan e requirements_id w) = Raise x ->
  x = HTTPException 404 "Project requirements not found"
  \/ (exists requirements_doc : document,
        Collection.find_one requirements_id (project_requirements w)
          = Some requirements_doc
        /\ ProjectRequirements.make (UUID.str (UUID.uuid4 (urandom_id e)))
             (utcnow e) requirements_doc = Raise x)
  \/ (exists caught : exn,
        x = HTTPException 500
              ("Failed to generate project plan: " ++ str_of_exn caught)%string).
Proof.
  unfold generate_plan.
  destruct (Collection.find_one requirements_id (project_requirements w))
    as [doc|] eqn:Hfind.
  - destruct (ProjectRequirements.make _ _ doc) as [r|y] eqn:Hmake.
    + destruct (generate_project_plan e r w) as [generated w'].
      destruct (plan_data ← generated; project_plan_of e requirements_id plan_data)
        as [plan|y]; simpl; intros H; [discriminate|].
      injection H as <-. right. right. now exists y.
    + simpl. intros H. injection H as <-. right. left. now exists doc.
  - simpl. intros H. injection H as <-. now left.
Qed.

(** X5. A request that is answered with an exception has stored nothing:
    both collections are what they were before it. *)
Theorem failed_request_stores_nothing
    (e : env) (req : request) (w : world) (x : exn) :
  fst (handle e req w) = Raise x ->
  project_requirements (snd (handle e req w)) = project_requirements w
  /\ project_plans (snd (handle e req w)) = project_plans w.
Proof.
  destruct req as [|input|rid|rid|pid| |]; simpl; try (now split).
  - unfold create_project_requirements.
    destruct (ProjectRequirements.make _ _ _); simpl; [discriminate|].
    now split.
  - unfold generate_plan.
    destruct (Collection.find_one rid (project_requirements w));
      [|now split].
    destruct (ProjectRequirements.make _ _ _) as [r|y]; [|now split].
    destruct (generate_project_plan_store e r w) as [Hr Hp].
    destruct (generate_project_plan e r w) as [generated w'].
    simpl in Hr, Hp.
    destruct (plan_data ← generated; project_plan_of e rid plan_data);
      simpl; [discriminate|].
    now split.
Qed.

(** X6. A plan generation that returns a plan has sent exactly one message
    to the model and inserted exactly one document, the document of the
    plan it returns, into the collection of plans; the collection of
    requirements is as it was. *)
Theorem generated_plan_effects
    (e : env) (requirements_id : string) (w : world) (plan : ProjectPlan.t) :
  fst (generate_plan e requirements_id w) = Return plan ->
  let w' := snd (generate_plan e requirements_id w) in
  project_requirements w' = project_requirements w
  /\ project_plans w'
     = project_plans w
         ++ [Collection.bson
               <$> Collection.with_object_id (ObjectId e)
                     (ProjectPlan.dict plan)]
  /\ (exists (chat : LlmChat) (prompt : string),
        get_gemini_chat e = Return chat
        /\ sent_messages w' = sent_messages w ++ [(chat, prompt)])
  /\ ProjectPlan.id plan = UUID.str (UUID.uuid4 (urandom_id e)).
Proof.
  unfold generate_plan.
  destruct (Collection.find_one requirements_id (project_requirements w));
    [|discriminate].
  destruct (ProjectRequirements.make _ _ _) as [r|y]; [|discriminate].
  unfold generate_project_plan.
  destruct (get_gemini_chat e) as [chat|y]; [|discriminate].
  destruct (send_message e chat (planning_prompt r)) as [response|y];
    [|discriminate].
  destruct (json_loads (response_text_of response)) as [plan_data|];
    [|discriminate].
  simpl.
  destruct (project_plan_of e requirements_id plan_data) as [p|y] eqn:Hp;
    simpl; [|discriminate].
  intros H. injection H as ->. split; [reflexivity|].
  split; [reflexivity|]. split.
  - exists chat, (planning_prompt r). now split.
  - exact (project_plan_of_id _ _ _ _ Hp).
Qed.

(** X7. One request inserts at most one document, into one collection,
    and sends at most one message to the model; only a POST of
    requirements adds to the requirements, and only a plan generation adds
    to the plans or sends a message. *)
Theorem request_effects_bounded (e : env) (req : request) (w : world) :
  let w' := snd (handle e req w) in
  (length (project_requirements w') + length (project_plans w')
   <= length (project_requirements w) + length (project_plans w) + 1)%nat
  /\ (length (sent_messages w') <= length (sent_messages w) + 1)%nat
  /\ (posts_requirements req = false ->
      project_requirements w' = project_requirements w)
  /\ (generates_plan req = false ->
      project_plans w' = project_plans w
      /\ sent_messages w' = sent_messages w).
Proof.
  assert (L : forall (A : Type) (l : list A) (a : A),
            length (l ++ [a]) = (length l + 1)%nat).
  { intros A l a. rewrite length_app. reflexivity. }
  destruct req as [|input|rid|rid|pid| |]; simpl;
    try (repeat split; intros; (lia || discriminate || reflexivity)).
  - unfold create_project_requirements.
    destruct (ProjectRequirements.make _ _ _); simpl;
      unfold Collection.insert_one; rewrite ?L;
      repeat split; intros; (lia || discriminate || reflexivity).
  - unfold generate_plan.
    destruct (Collection.find_one rid (project_requirements w));
      [|simpl; repeat split; intros; (lia || discriminate || reflexivity)].
    destruct (ProjectRequirements.make _ _ _) as [r|y];
      [|simpl; repeat split; intros; (lia || discriminate || reflexivity)].
    unfold generate_project_plan.
    destruct (get_gemini_chat e) as [chat|y];
      [|simpl; repeat split; intros; (lia || discriminate || reflexivity)].
    destruct (send_message e chat (planning_prompt r)) as [response|y];
      [|simpl; rewrite ?L;
        repeat split; intros; (lia || discriminate || reflexivity)].
    destruct (json_loads (response_text_of response)) as [plan_data|];
      [|simpl; rewrite ?L;
        repeat split; intros; (lia || discriminate || reflexivity)].
    simpl.
    destruct (project_plan_of e rid plan_data); simpl;
      unfold Collection.insert_one; rewrite ?L;
      repeat split; intros; (lia || discriminate || reflexivity).
Qed.

End GenerationFailures.

(** ** Replies that are JSON but not the JSON of a plan *)

Section OffSchema.

Context {X : Externals}.

Lemma subscript_missing (d : document) (key : string) :
  d !! key = None -> subscript (VDict d) key = Raise (KeyError key).
Proof. intros H. unfold subscript. now rewrite H. Qed.

Lemma subscript_present (d : document) (key : string) (v : value) :
  d !! key = Some v -> subscript (VDict d) key = Return v.
Proof. intros H. unfold subscript. now rewrite H. Qed.

(** A step that raises for every result of the steps before it makes the
    whole sequence raise. *)
Lemma bind_raises_after {A B : Type} (m : result A) (f : A -> result B) :
  (forall a : A, exists x : exn, f a = Raise x) ->
  exists x : exn, (a ← m; f a) = Raise x.
Proof.
  intros H. destruct m as [a|x]; [exact (H a) | now exists x].
Qed.

Ltac earlier_steps :=
  repeat first
    [ eexists; reflexivity
    | apply bind_raises_after; intros ?; simpl ].

(** X8. A reply that parses to a JSON value other than an object (an
    array, a string, a number, [true], [false], [null]) raises [TypeError]
    at the first key read from it: no plan is built. *)
Theorem project_plan_of_non_object
    (e : env) (requirements_id : string) (plan_data : value) :
  (forall d : document, plan_data <> VDict d) ->
  project_plan_of e requirements_id plan_data = Raise TypeError.
Proof.
  intros Hnot. destruct plan_data; try reflexivity.
  now destruct (Hnot d).
Qed.

(** X9. A reply object in which one of the eight keys that the route reads
    is missing raises an exception: no plan is built, whatever the other
    keys hold.  When the missing key is [objectives], the first one read,
    the exception is the [KeyError] of that key. *)
Theorem project_plan_of_missing_key
    (e : env) (requirements_id : string) (reply : document) (key : string) :
  key ∈ plan_keys -> reply !! key = None ->
  (exists x : exn, project_plan_of e requirements_id (VDict reply) = Raise x)
  /\ (key = "objectives" ->
      project_plan_of e requirements_id (VDict reply)
      = Raise (KeyError "objectives")).
Proof.
  intros Hkey Hnone. split.
  - unfold plan_keys in Hkey.
    repeat (apply elem_of_cons in Hkey as [-> | Hkey]);
      [..|now apply elem_of_nil in Hkey];
      unfold project_plan_of;
      rewrite (subscript_missing _ _ Hnone); simpl; earlier_steps.
  - intros ->. unfold project_plan_of.
    now rewrite (subscript_missing _ _ Hnone).
Qed.

(** X10. A reply object whose [success_metrics] or [next_steps] is not an
    array raises an exception, whatever the validators are: these two
    fields are not iterated over but validated as lists. *)
Theorem project_plan_of_list_field_not_array
    (e : env) (requirements_id : string) (reply : document)
    (key : string) (v : value) :
  key = "success_metrics" \/ key = "next_steps" ->
  reply !! key = Some v ->
  (forall l : list value, v <> VList l) ->
  exists x : exn, project_plan_of e requirements_id (VDict reply) = Raise x.
Proof.
  intros Hkey Hv Hnot.
  assert (Hbad : validate (list_validator str_validator) v
                 = Raise ValidationError).
  { destruct v; try reflexivity. now destruct (Hnot l). }
  destruct Hkey as [-> | ->];
    unfold project_plan_of, ProjectPlan.make;
    rewrite (subscript_present _ _ _ Hv); simpl; rewrite Hbad; simpl;
    earlier_steps.
Qed.

(** X11. For the four fields that the route iterates over, an empty string
    or an empty object in place of the array is taken as the empty array:
    the route builds from such a reply what it builds from the reply with
    [[]] under that key. *)
Theorem project_plan_of_empty_iterable
    (e : env) (requirements_id : string) (reply : document)
    (key : string) (v : value) :
  key ∈ iterated_keys ->
  v = VStr "" \/ v = VDict ∅ ->
  project_plan_of e requirements_id (VDict (<[key := v]> reply))
  = project_plan_of e requirements_id (VDict (<[key := VList []]> reply)).
Proof.
  intros Hkey Hv.
  assert (Hiter : iterate v = Return []).
  { destruct Hv as [-> | ->]; simpl; [reflexivity|].
    now rewrite map_to_list_empty. }
  unfold iterated_keys in Hkey.
  repeat (apply elem_of_cons in Hkey as [-> | Hkey]);
    [..|now apply elem_of_nil in Hkey];
    unfold project_plan_of, subscript;
    repeat (rewrite lookup_insert_eq || rewrite lookup_insert_ne by discriminate);
    simpl; rewrite Hiter; reflexivity.
Qed.

End OffSchema.

(** ** Reads *)

Section Reads.

Context {X : Externals}.

Local Open Scope list_scope.

Lemma matches_id_lookup (x : string) (d : document) :
  Collection.matches_id x d = true -> d !! "id" = Some (VStr x).
Proof.
  unfold Collection.matches_id.
  destruct (d !! "id") as [[]|]; try discriminate.
  intros H. apply String.eqb_eq in H. now subst.
Qed.

Lemma find_one_none_inv (x : string) (coll : list document) :
  Collection.find_one x coll = None ->
  forall d, d ∈ coll -> Collection.matches_id x d = false.
Proof.
  intros H d Hd. apply list_elem_of_In in Hd.
  exact (find_none _ _ H d Hd).
Qed.


Lemma bind_Raise_inv {A B : Type} (m : result A) (f : A -> result B)
    (x : exn) :
  (a ← m; f a) = Raise x ->
  m = Raise x \/ exists a : A, m = Return a /\ f a = Raise x.
Proof.
  destruct m as [a|y]; intros H; [right; eauto|].
  left. simpl in H. injection H as ->. reflexivity.
Qed.

Lemma required_raises {A : Type} (validator : value -> option A)
    (d : document) (key : string) (x : exn) :
  required validator d key = Raise x -> x = ValidationError.
Proof.
  unfold required. destruct (d !! key) as [v|]; [destruct (validator v)|];
    intros H; now inversion H.
Qed.

Lemma optional_raises {A : Type} (validator : value -> option A)
    (d : document) (key : string) (x : exn) :
  optional validator d key = Raise x -> x = ValidationError.
Proof.
  unfold optional. destruct (d !! key) as [v|]; [|discriminate].
  destruct v; try discriminate;
    match goal with |- context [validator ?v] => destruct (validator v) end;
    intros H; now inversion H.
Qed.

Lemma defaulted_raises {A : Type} (validator : value -> option A)
    (d : document) (key : string) (default : A) (x : exn) :
  defaulted validator d key default = Raise x -> x = ValidationError.
Proof.
  unfold defaulted. destruct (d !! key) as [v|]; [destruct (validator v)|];
    intros H; now inversion H.
Qed.

(** The only exception that the constructor of a requirements record
    raises. *)
Lemma requirements_make_raises (new_id : string) (now : Z) (d : document)
    (x : exn) :
  ProjectRequirements.make new_id now d = Raise x -> x = ValidationError.
Proof.
  unfold ProjectRequirements.make. intros H.
  repeat match type of H with
         | (_ ← _; _) = Raise _ =>
             apply bind_Raise_inv in H as [H | (? & _ & H)];
             [ solve [ eapply required_raises; exact H
                     | eapply optional_raises; exact H
                     | eapply defaulted_raises; exact H ] |]
         end.
  discriminate H.
Qed.

(** X13. A read of requirements by identifier answers 404 exactly when no
    stored requirements document has that identifier; the record it returns
    otherwise has the identifier asked for. *)
Theorem get_project_requirements_by_id {V : ValidatorsKeepOwnType X}
    (e : env) (requirements_id : string) (w : world) :
  (status_code_of (get_project_requirements e requirements_id w) = 404
   <-> forall d : document,
         d ∈ project_requirements w ->
         Collection.matches_id requirements_id d = false)
  /\ (forall got : ProjectRequirements.t,
        get_project_requirements e requirements_id w = Return got ->
        ProjectRequirements.id got = requirements_id).
Proof.
  unfold get_project_requirements. split; [split|].
  - destruct (Collection.find_one requirements_id (project_requirements w))
      as [doc|] eqn:Hf.
    + destruct (ProjectRequirements.make _ _ doc) as [r|x] eqn:Hmake;
        [discriminate|].
      apply requirements_make_raises in Hmake. subst x. discriminate.
    + intros _. now apply find_one_none_inv.
  - intros Hnone. now rewrite (find_one_none _ _ Hnone).
  - intros got.
    destruct (Collection.find_one requirements_id (project_requirements w))
      as [doc|] eqn:Hf; [|discriminate].
    apply find_one_elem in Hf as [_ Hm]. apply matches_id_lookup in Hm.
    unfold ProjectRequirements.make, defaulted at 2. rewrite Hm.
    rewrite str_validator_str. intros H.
    apply bind_Return_inv in H as (x0 & H0 & H). inversion H0; subst x0.
    do 9 (apply bind_Return_inv in H as (? & _ & H)).
    injection H as <-. reflexivity.
Qed.


(** X15. Once a collection holds 100 documents, no request changes its
    listing: the documents inserted later are stored, but they are beyond
    the 100 that the listing returns. *)
Theorem full_listing_is_frozen (e : env) (req : request) (w : world) :
  ((100 <= length (project_requirements w))%nat ->
   get_all_project_requirements (snd (handle e req w))
   = get_all_project_requirements w)
  /\ ((100 <= length (project_plans w))%nat ->
      get_all_project_plans (snd (handle e req w))
      = get_all_project_plans w).
Proof.
  destruct (handle_appends e req w) as (ar & ap & Hr & Hp & _ & _).
  unfold get_all_project_plans, get_all_project_requirements,
    Collection.to_list.
  split; intros Hfull.
  - rewrite Hr, take_app_le by exact Hfull. reflexivity.
  - rewrite Hp, take_app_le by exact Hfull. reflexivity.
Qed.

End Reads.

(** ** More on the prompt and on the text handed to the parser *)

Section Texts.

Import PyStr.

(** X16. An empty budget range gives the prompt of an absent one: two
    records that agree on the other seven fields, one with the empty string
    and one with no budget range, have the same prompt, with [Not
    specified] after the budget label. *)
Theorem empty_budget_is_unspecified (r r' : ProjectRequirements.t) :
  ProjectRequirements.title r = ProjectRequirements.title r' ->
  ProjectRequirements.description r = ProjectRequirements.description r' ->
  ProjectRequirements.business_context r
    = ProjectRequirements.business_context r' ->
  ProjectRequirements.success_criteria r
    = ProjectRequirements.success_criteria r' ->
  ProjectRequirements.constraints r = ProjectRequirements.constraints r' ->
  ProjectRequirements.stakeholders r = ProjectRequirements.stakeholders r' ->
  ProjectRequirements.timeline_preference r
    = ProjectRequirements.timeline_preference r' ->
  ProjectRequirements.budget_range r = Some "" ->
  ProjectRequirements.budget_range r' = None ->
  planning_prompt r = planning_prompt r'
  /\ contains (planning_prompt r) ("- Budget Range: " ++ "Not specified").
Proof.
  intros Ht Hd Hb Hs Hc Hk Hp Hr Hr'.
  assert (Heq : planning_prompt r = planning_prompt r').
  { unfold planning_prompt.
    rewrite Ht, Hd, Hb, Hs, Hc, Hk, Hp, Hr, Hr'. reflexivity. }
  split; [exact Heq|]. rewrite Heq.
  unfold planning_prompt. rewrite Hr'.
  repeat first
    [ exact (contains_labelled (nl ++ "    ") "- Budget Range: " _ _)
    | apply contains_skip ].
Qed.

End Texts.

Section Fences2.

Import PyStr.

Lemma startswith_other_head (a c : ascii) (p s : string) :
  a <> c -> startswith (String c s) (String a p) = false.
Proof.
  intros Hac. unfold startswith. simpl.
  destruct (ascii_dec a c); [contradiction | reflexivity].
Qed.

(** X17. Only a fence at the very start of the reply is cut, and only the
    lowercase [json] tag goes with it: a reply that starts (after the
    spaces) with any character other than a backquote is handed to the
    parser whole, fences and all; and after a bare fence, whatever follows
    it and does not start with [j] (another tag, a tag in capitals) stays
    in the text handed to the parser. *)
Theorem only_a_leading_json_fence_is_cut :
  (forall (response : string) (c : ascii) (s : string),
     strip response = String c s -> c <> "`"%char ->
     response_text_of response = strip response)
  /\ (forall (pad1 pad2 m : string) (c : ascii),
        all_chars isspace pad1 = true -> all_chars isspace pad2 = true ->
        c <> "j"%char ->
        response_text_of (pad1 ++ "```" ++ String c m ++ "```" ++ pad2)
        = String c m).
Proof.
  split.
  - intros response c s Hs Hc. unfold response_text_of. rewrite Hs.
    change "```json" with (String "`" "``json").
    change "```" with (String "`" "``").
    now rewrite !startswith_other_head by (intros E; now apply Hc).
  - intros pad1 pad2 m c H1 H2 Hc.
    apply response_text_bare_fence; [exact H1 | exact H2 |].
    rewrite string_app_cons. change "json" with (String "j" "son").
    apply startswith_other_head. intros E. now apply Hc.
Qed.

(** X18. A fenced reply with nothing, or less than three characters,
    between the opening fence and its end leaves the empty text: with the
    [json] tag when the reply (without the spaces around it) has at most
    ten characters, with a bare fence when it has at most six. *)
Theorem short_fenced_reply_is_empty (response : string) :
  let text := strip response in
  (startswith text "```json" = true -> (String.length text <= 10)%nat ->
   response_text_of response = "")
  /\ (startswith text "```json" = false -> startswith text "```" = true ->
      (String.length text <= 6)%nat ->
      response_text_of response = "").
Proof.
  intros text.
  assert (Hcut : forall a : nat,
            (String.length text <= a + 3)%nat ->
            slice text (Z.of_nat a) (- Z.of_nat 3) = "").
  { intros a Hlen. rewrite slice_drop by lia.
    unfold drop_last, drop_first.
    rewrite list_ascii_of_string_of_list_ascii.
    rewrite drop_ge; [reflexivity|].
    rewrite length_rev, length_drop, list_ascii_length. lia. }
  unfold response_text_of. fold text. split.
  - intros -> Hlen. exact (Hcut 7%nat Hlen).
  - intros -> -> Hlen. exact (Hcut 3%nat Hlen).
Qed.

End Fences2.

Section ReadBack.

Context {X : Externals}.

Local Open Scope list_scope.



End ReadBack.

(** ** Sequences of requests *)

Section Sequences.

Context {X : Externals}.

Local Open Scope list_scope.

Lemma get_gemini_chat_Return (e : env) (chat : LlmChat) :
  get_gemini_chat e = Return chat ->
  provider chat = "gemini" /\ model chat = "gemini-2.0-flash"
  /\ max_tokens chat = 8000 /\ system_message chat = system_message_text
  /\ api_key chat <> ""%string.
Proof.
  unfold get_gemini_chat.
  destruct (GEMINI_API_KEY e) as [key|]; [|discriminate].
  destruct key as [|c key]; [discriminate|]. simpl.
  intros H. injection H as <-. simpl. repeat split. discriminate.
Qed.

Ltac nothing_added :=
  exists [], [], []; rewrite !app_nil_r;
  split; [reflexivity|]; split; [reflexivity|]; split; [reflexivity|];
  split; [now left|]; split; now left.

Ltac message_added chat r :=
  exists [], [], [(chat, planning_prompt r)]; rewrite !app_nil_r;
  split; [reflexivity|]; split; [reflexivity|]; split; [reflexivity|];
  split; [now left|]; split; [now left|];
  right; exists chat, r; now repeat split.

(** What one request adds to the two collections and to the messages. *)
Lemma handle_step (e : env) (req : request) (w : world) :
  exists (ar ap : list document) (am : list (LlmChat * string)),
    project_requirements (snd (handle e req w)) = project_requirements w ++ ar
    /\ project_plans (snd (handle e req w)) = project_plans w ++ ap
    /\ sent_messages (snd (handle e req w)) = sent_messages w ++ am
    /\ (ar = []
        \/ exists r : ProjectRequirements.t,
             posts_requirements req = true /\ ap = [] /\ am = []
             /\ ProjectRequirements.id r = drawn_id e
             /\ ar = [Collection.bson
                        <$> Collection.with_object_id (ObjectId e)
                              (ProjectRequirements.dict r)])
    /\ (ap = []
        \/ exists p : ProjectPlan.t,
             generates_plan req = true /\ ar = []
             /\ ProjectPlan.id p = drawn_id e
             /\ ap = [Collection.bson
                        <$> Collection.with_object_id (ObjectId e)
                              (ProjectPlan.dict p)])
    /\ (am = []
        \/ exists (chat : LlmChat) (r : ProjectRequirements.t),
             generates_plan req = true
             /\ get_gemini_chat e = Return chat
             /\ am = [(chat, planning_prompt r)]).
Proof.
  destruct req as [|input|rid|rid|pid| |]; simpl; try nothing_added.
  - unfold create_project_requirements.
    destruct (ProjectRequirements.make _ _ _) as [r|x] eqn:Hmake;
      [|nothing_added].
    simpl. unfold Collection.insert_one.
    eexists [_], [], []. rewrite !app_nil_r.
    split; [reflexivity|]. split; [reflexivity|]. split; [reflexivity|].
    split; [|split; now left].
    right. exists r. repeat split.
    exact (make_of_payload_id _ _ _ _ Hmake).
  - unfold generate_plan.
    destruct (Collection.find_one rid (project_requirements w));
      [|nothing_added].
    destruct (ProjectRequirements.make _ _ _) as [r|x]; [|nothing_added].
    unfold generate_project_plan.
    destruct (get_gemini_chat e) as [chat|x] eqn:Hchat; [|nothing_added].
    destruct (send_message e chat (planning_prompt r)) as [response|x];
      [|message_added chat r].
    destruct (json_loads (response_text_of response)) as [plan_data|];
      [|message_added chat r].
    simpl.
    destruct (project_plan_of e rid plan_data) as [p|x] eqn:Hplan; simpl;
      [|message_added chat r].
    unfold Collection.insert_one.
    eexists [], [_], [_]. rewrite !app_nil_r.
    split; [reflexivity|]. split; [reflexivity|]. split; [reflexivity|].
    split; [now left|]. split.
    + right. exists p. repeat split.
      exact (project_plan_of_id _ _ _ _ Hplan).
    + right. exists chat, r. now repeat split.
Qed.

(** With validators that keep a string, the POST of requirements stores
    its document. *)
Lemma create_inserts_one (V : ValidatorsKeepOwnType X) (e : env)
    (input : ProjectRequirementsCreate.t) (w : world) :
  length (project_requirements
            (snd (create_project_requirements e input w)))
  = S (length (project_requirements w)).
Proof.
  unfold create_project_requirements. rewrite (make_of_payload V). simpl.
  unfold Collection.insert_one. rewrite length_app. simpl. lia.
Qed.

(** X20. After any sequence of requests there is one more requirements
    document for each POST of requirements in it, at most one more plan
    document and at most one more message sent for each plan generation in
    it: a generation is never retried and a POST never stores twice. *)
Theorem stored_counts {V : ValidatorsKeepOwnType X}
    (ops : list (env * request)) (w : world) :
  length (project_requirements (run ops w))
    = (length (project_requirements w)
       + count_requests posts_requirements ops)%nat
  /\ (length (project_plans (run ops w))
      <= length (project_plans w) + count_requests generates_plan ops)%nat
  /\ (length (sent_messages (run ops w))
      <= length (sent_messages w) + count_requests generates_plan ops)%nat.
Proof.
  revert w. induction ops as [|[e req] ops IH]; intros w.
  - unfold count_requests. simpl. lia.
  - simpl run. destruct (IH (snd (handle e req w))) as (Hr & Hp & Hm).
    assert (Hstep :
      length (project_requirements (snd (handle e req w)))
        = (length (project_requirements w)
           + (if posts_requirements req then 1 else 0))%nat
      /\ (length (project_plans (snd (handle e req w)))
          <= length (project_plans w)
             + (if generates_plan req then 1 else 0))%nat
      /\ (length (sent_messages (snd (handle e req w)))
          <= length (sent_messages w)
             + (if generates_plan req then 1 else 0))%nat).
    { destruct (handle_step e req w)
        as (ar & ap & am & Har & Hap & Ham & Car & Cap & Cam).
      rewrite Hap, Ham, !length_app.
      assert (Lp : (length ap <= if generates_plan req then 1 else 0)%nat).
      { destruct Cap as [-> | (p & -> & _ & _ & ->)]; simpl; lia. }
      assert (Lm : (length am <= if generates_plan req then 1 else 0)%nat).
      { destruct Cam as [-> | (c & r & -> & _ & ->)]; simpl; lia. }
      split; [|lia].
      destruct (posts_requirements req) eqn:Hposts.
      - destruct req as [|input|rid|rid|pid| |]; try discriminate Hposts.
        replace (snd (handle e (POST_project_requirements input) w))
          with (snd (create_project_requirements e input w))
          by (simpl; now destruct (create_project_requirements e input w)).
        rewrite (create_inserts_one V). lia.
      - destruct Car as [-> | (r & Hp' & _)]; [|discriminate Hp'].
        rewrite Har, app_nil_r. lia. }
    destruct Hstep as (Sr & Sp & Sm).
    unfold count_requests in *. simpl List.filter.
    destruct (posts_requirements req), (generates_plan req); simpl length;
      lia.
Qed.

(** X21. In every state that the service reaches from the empty store,
    with validators that keep a string and a time, every stored
    requirements document builds a record: a read of requirements answers
    200 or 404, never 500, and the exceptions of plan generation are all
    [HTTPException]s, with status 404 or 500. *)
Theorem reachable_requirements_are_valid {V : ValidatorsKeepOwnType X}
    (ops : list (env * request)) (e : env) (requirements_id : string) :
  let w := run ops empty_world in
  Forall stored_requirements_document (project_requirements w)
  /\ (status_code_of (get_project_requirements e requirements_id w) = 200
      \/ status_code_of (get_project_requirements e requirements_id w) = 404)
  /\ (forall x : exn,
        fst (generate_plan e requirements_id w) = Raise x ->
        exists detail : string,
          x = HTTPException 404 detail \/ x = HTTPException 500 detail).
Proof.
  intros w.
  assert (Hinv : forall (l : list (env * request)) (w0 : world),
            Forall stored_requirements_document (project_requirements w0) ->
            Forall stored_requirements_document
                   (project_requirements (run l w0))).
  { induction l as [|[e0 req0] l IH]; intros w0 H0; [exact H0|].
    simpl run. apply IH.
    destruct (handle_step e0 req0 w0)
      as (ar & ap & am & Har & _ & _ & Car & _ & _).
    rewrite Har. apply Forall_app. split; [exact H0|].
    destruct Car as [-> | (r & _ & _ & _ & _ & ->)]; [constructor|].
    constructor; [|constructor]. now exists (ObjectId e0), r. }
  assert (Hw : Forall stored_requirements_document (project_requirements w)).
  { apply Hinv. constructor. }
  split; [exact Hw|].
  rewrite Forall_forall in Hw.
  split.
  - unfold get_project_requirements.
    destruct (Collection.find_one requirements_id (project_requirements w))
      as [doc|] eqn:Hf; [|now right].
    apply find_one_elem in Hf as [Hin _].
    destruct (Hw doc Hin) as (oid & r & ->).
    rewrite (make_of_stored V). now left.
  - intros x. unfold generate_plan.
    destruct (Collection.find_one requirements_id (project_requirements w))
      as [doc|] eqn:Hf.
    + apply find_one_elem in Hf as [Hin _].
      destruct (Hw doc Hin) as (oid & r & ->).
      rewrite (make_of_stored V).
      match goal with
      | |- context [generate_project_plan e ?r0 w] =>
          destruct (generate_project_plan e r0 w) as [generated w']
      end.
      destruct (plan_data ← generated;
                project_plan_of e requirements_id plan_data) as [p|y];
        simpl; intros H; [discriminate|].
      injection H as <-. eexists. now right.
    + simpl. intros H. injection H as <-. eexists. now left.
Qed.

Lemma matches_id_id_of (x : string) (d : document) :
  Collection.matches_id x d = true <-> id_of d = Some x.
Proof.
  unfold Collection.matches_id, id_of.
  destruct (d !! "id") as [[]|]; try (split; discriminate).
  rewrite String.eqb_eq. split; [now intros -> | now intros [= ->]].
Qed.

(** In a collection without two documents of the same [id], the document
    found for an identifier is the one that has it. *)
Lemma find_one_unique (coll : list document) (d : document) (x : string) :
  NoDup (id_of <$> coll) -> d ∈ coll -> id_of d = Some x ->
  Collection.find_one x coll = Some d.
Proof.
  unfold Collection.find_one.
  induction coll as [|d0 coll IH]; intros Hnd Hin Hid.
  - now apply elem_of_nil in Hin.
  - simpl in Hnd. apply NoDup_cons in Hnd as [Hnotin Hnd]. simpl.
    destruct (Collection.matches_id x d0) eqn:Hm0.
    + apply matches_id_id_of in Hm0.
      apply elem_of_cons in Hin as [-> | Hin]; [reflexivity|].
      destruct Hnotin. rewrite Hm0, <- Hid.
      now apply list_elem_of_fmap_2.
    + apply elem_of_cons in Hin as [-> | Hin].
      * apply matches_id_id_of in Hid. congruence.
      * now apply IH.
Qed.

(** The identifiers of the stored documents are, in order, identifiers
    drawn by the requests. *)
Lemma run_ids (ops : list (env * request)) :
  forall w : world,
  exists lr lp : list (option string),
    id_of <$> project_requirements (run ops w)
      = (id_of <$> project_requirements w) ++ lr
    /\ id_of <$> project_plans (run ops w)
       = (id_of <$> project_plans w) ++ lp
    /\ lr `sublist_of` ((fun op => Some (drawn_id (fst op))) <$> ops)
    /\ lp `sublist_of` ((fun op => Some (drawn_id (fst op))) <$> ops).
Proof.
  induction ops as [|[e req] ops IH]; intros w.
  - exists [], []. simpl. rewrite !app_nil_r. repeat split; constructor.
  - simpl run.
    destruct (IH (snd (handle e req w))) as (lr & lp & Hr & Hp & Sr & Sp).
    destruct (handle_step e req w)
      as (ar & ap & am & Har & Hap & _ & Car & Cap & _).
    exists ((id_of <$> ar) ++ lr), ((id_of <$> ap) ++ lp).
    rewrite Hr, Hp, Har, Hap, !fmap_app, <- !app_assoc.
    split; [reflexivity|]. split; [reflexivity|].
    rewrite fmap_cons. simpl fst.
    split.
    + destruct Car as [-> | (r & _ & _ & _ & Hid & ->)].
      * simpl. now apply sublist_cons.
      * simpl. replace (id_of _) with (Some (drawn_id e)).
        { now apply sublist_skip. }
        unfold id_of. rewrite inserted_lookup by discriminate.
        destruct (requirements_dict_lookup r) as (-> & _). simpl.
        now rewrite Hid.
    + destruct Cap as [-> | (p & _ & _ & Hid & ->)].
      * simpl. now apply sublist_cons.
      * simpl. replace (id_of _) with (Some (drawn_id e)).
        { now apply sublist_skip. }
        unfold id_of. rewrite inserted_lookup by discriminate.
        replace (ProjectPlan.dict p !! "id")
          with (Some (VStr (ProjectPlan.id p))) by reflexivity.
        simpl. now rewrite Hid.
Qed.

(** X22. When the identifiers drawn by the requests of a sequence are all
    different, every document stored after the sequence, started from the
    empty store, is the one that a read by its identifier finds: no two
    stored plans and no two stored requirements share an identifier. *)
Theorem stored_documents_are_found_by_id (ops : list (env * request)) :
  NoDup ((fun op => drawn_id (fst op)) <$> ops) ->
  let w := run ops empty_world in
  NoDup (id_of <$> project_requirements w)
  /\ NoDup (id_of <$> project_plans w)
  /\ (forall (d : document) (x : string),
        d ∈ project_requirements w -> id_of d = Some x ->
        Collection.find_one x (project_requirements w) = Some d)
  /\ (forall (d : document) (x : string),
        d ∈ project_plans w -> id_of d = Some x ->
        get_project_plan x w = Return d).
Proof.
  intros Hnd w.
  destruct (run_ids ops empty_world) as (lr & lp & Hr & Hp & Sr & Sp).
  simpl in Hr, Hp. fold w in Hr, Hp.
  assert (Hsome : NoDup ((fun op => Some (drawn_id (fst op))) <$> ops)).
  { replace ((fun op => Some (drawn_id (fst op))) <$> ops)
      with (Some <$> ((fun op => drawn_id (fst op)) <$> ops))
      by (now rewrite <- list_fmap_compose).
    now apply (NoDup_fmap_2 Some). }
  assert (Nr : NoDup (id_of <$> project_requirements w)).
  { rewrite Hr. exact (sublist_NoDup _ _ Hsome Sr). }
  assert (Np : NoDup (id_of <$> project_plans w)).
  { rewrite Hp. exact (sublist_NoDup _ _ Hsome Sp). }
  split; [exact Nr|]. split; [exact Np|]. split.
  - intros d x Hin Hid. now apply find_one_unique.
  - intros d x Hin Hid. unfold get_project_plan.
    now rewrite (find_one_unique _ d x Np Hin Hid).
Qed.

(** X23. Every message that the service has sent to the model, in any
    state reached from a world without sent messages, is a planning prompt
    built from a requirements record, sent on a chat with the provider, the
    model, the token limit and the system message of [get_gemini_chat] and
    a key that is not empty. *)
Theorem only_planning_prompts_are_sent (ops : list (env * request)) :
  Forall planning_message (sent_messages (run ops empty_world)).
Proof.
  assert (Hinv : forall (l : list (env * request)) (w0 : world),
            Forall planning_message (sent_messages w0) ->
            Forall planning_message (sent_messages (run l w0))).
  { induction l as [|[e0 req0] l IH]; intros w0 H0; [exact H0|].
    simpl run. apply IH.
    destruct (handle_step e0 req0 w0)
      as (ar & ap & am & _ & _ & Ham & _ & _ & Cam).
    rewrite Ham. apply Forall_app. split; [exact H0|].
    destruct Cam as [-> | (chat & r & _ & Hchat & ->)]; [constructor|].
    constructor; [|constructor].
    destruct (get_gemini_chat_Return _ _ Hchat) as (P & M & T & S & K).
    unfold planning_message. simpl. repeat split; try assumption.
    now exists r. }
  apply Hinv. constructor.
Qed.

End Sequences.

(** ** The further properties on the sample run *)

Lemma generate_plan_without_api_key_witness :
  status_code_of
    (fst (@generate_plan Reference.externals SampleFailures.env_no_key
            SampleRun.requirements_id SampleRun.world_posted)) = 500
  /\ snd (@generate_plan Reference.externals SampleFailures.env_no_key
            SampleRun.requirements_id SampleRun.world_posted)
     = SampleRun.world_posted.
Proof.
  exact (@generate_plan_without_api_key Reference.externals
           SampleFailures.env_no_key SampleRun.requirements_id
           SampleRun.world_posted SampleRun.requirements_doc SampleRun.stored
           ltac:(reflexivity) ltac:(reflexivity)
           (or_introl eq_refl)).
Defined.

Lemma generate_plan_model_call_fails_witness :
  status_code_of
    (fst (@generate_plan Reference.externals SampleFailures.env_model_down
            SampleRun.requirements_id SampleRun.world_posted)) = 500
  /\ project_plans
       (snd (@generate_plan Reference.externals SampleFailures.env_model_down
               SampleRun.requirements_id SampleRun.world_posted))
     = project_plans SampleRun.world_posted.
Proof.
  destruct (@generate_plan_model_call_fails Reference.externals
              SampleFailures.env_model_down SampleRun.requirements_id
              SampleRun.world_posted SampleRun.requirements_doc
              SampleRun.stored SampleRun.chat (ModelCallError "timeout")
              ltac:(reflexivity) ltac:(reflexivity)
              ltac:(reflexivity) ltac:(reflexivity))
    as (H500 & _ & _ & Hplans).
  split; [exact H500 | exact Hplans].
Defined.

Lemma generate_plan_reply_off_schema_witness :
  fst (@generate_plan Reference.externals (SampleRun.env_generate "[1, 2]")
         SampleRun.requirements_id SampleRun.world_posted)
  = Raise (HTTPException 500 "Failed to generate project plan: TypeError")
  /\ project_plans
       (snd (@generate_plan Reference.externals
               (SampleRun.env_generate "[1, 2]")
               SampleRun.requirements_id SampleRun.world_posted))
     = project_plans SampleRun.world_posted.
Proof.
  destruct (@generate_plan_reply_off_schema Reference.externals
              (SampleRun.env_generate "[1, 2]") SampleRun.requirements_id
              SampleRun.world_posted SampleRun.requirements_doc
              SampleRun.stored SampleRun.chat "[1, 2]"
              (VList [VInt 1; VInt 2]) TypeError
              ltac:(reflexivity) ltac:(reflexivity)
              ltac:(reflexivity) ltac:(reflexivity)
              ltac:(vm_compute; reflexivity) ltac:(reflexivity))
    as (Hfst & _ & _ & Hplans).
  split; [exact Hfst | exact Hplans].
Defined.

Lemma generate_plan_failures_witness :
  HTTPException 404 "Project requirements not found"
  = HTTPException 404 "Project requirements not found"
  \/ (exists requirements_doc : document,
        Collection.find_one "no-such-id"
          (project_requirements SampleRun.world_posted)
        = Some requirements_doc
        /\ @ProjectRequirements.make Reference.externals
             (UUID.str (UUID.uuid4 (urandom_id SampleFailures.env_no_key)))
             (utcnow SampleFailures.env_no_key) requirements_doc
           = Raise (HTTPException 404 "Project requirements not found"))
  \/ (exists caught : exn,
        HTTPException 404 "Project requirements not found"
        = HTTPException 500
            ("Failed to generate project plan: "
               ++ @str_of_exn Reference.externals caught)).
Proof.
  exact (@generate_plan_failures Reference.externals
           SampleFailures.env_no_key "no-such-id" SampleRun.world_posted
           (HTTPException 404 "Project requirements not found")
           ltac:(vm_compute; reflexivity)).
Defined.

Lemma failed_request_stores_nothing_witness :
  project_requirements
    (snd (@handle Reference.externals SampleFailures.env_model_down
            (POST_generate_plan SampleRun.requirements_id)
            SampleRun.world_posted))
  = project_requirements SampleRun.world_posted
  /\ project_plans
       (snd (@handle Reference.externals SampleFailures.env_model_down
               (POST_generate_plan SampleRun.requirements_id)
               SampleRun.world_posted))
     = project_plans SampleRun.world_posted.
Proof.
  exact (@failed_request_stores_nothing Reference.externals
           SampleFailures.env_model_down
           (POST_generate_plan SampleRun.requirements_id)
           SampleRun.world_posted
           (HTTPException 500
              "Failed to generate project plan: Failed to generate project plan")
           ltac:(vm_compute; reflexivity)).
Defined.

Lemma generated_plan_effects_witness :
  let e := SampleRun.env_generate SampleRun.fenced_reply in
  project_requirements
    (snd (@generate_plan Reference.externals e SampleRun.requirements_id
            SampleRun.world_posted))
  = project_requirements SampleRun.world_posted
  /\ ProjectPlan.id SampleRun.plan = UUID.str (UUID.uuid4 (urandom_id e)).
Proof.
  intros e.
  destruct (@generated_plan_effects Reference.externals e
              SampleRun.requirements_id SampleRun.world_posted SampleRun.plan
              ltac:(vm_compute; reflexivity))
    as (Hreq & _ & _ & Hid).
  split; [exact Hreq | exact Hid].
Defined.

Lemma project_plan_of_non_object_witness :
  @project_plan_of Reference.externals SampleFailures.env_model_down
    SampleRun.requirements_id (VList [VInt 1; VInt 2])
  = Raise TypeError.
Proof.
  exact (@project_plan_of_non_object Reference.externals
           SampleFailures.env_model_down SampleRun.requirements_id
           (VList [VInt 1; VInt 2]) ltac:(intros d; discriminate)).
Defined.

Lemma project_plan_of_missing_key_witness :
  exists x : exn,
    @project_plan_of Reference.externals SampleFailures.env_model_down
      SampleRun.requirements_id (VDict SampleFailures.only_objectives)
    = Raise x.
Proof.
  exact (proj1 (@project_plan_of_missing_key Reference.externals
                  SampleFailures.env_model_down SampleRun.requirements_id
                  SampleFailures.only_objectives "wbs_tasks"
                  ltac:(apply list_elem_of_further, list_elem_of_here)
                  ltac:(vm_compute; reflexivity))).
Defined.

Lemma project_plan_of_list_field_not_array_witness :
  exists x : exn,
    @project_plan_of Reference.externals
      (SampleRun.env_generate SampleRun.fenced_reply)
      SampleRun.requirements_id (VDict SampleFailures.metrics_as_text)
    = Raise x.
Proof.
  exact (@project_plan_of_list_field_not_array Reference.externals
           (SampleRun.env_generate SampleRun.fenced_reply)
           SampleRun.requirements_id SampleFailures.metrics_as_text
           "success_metrics" (VStr "Uptime, Revenue")
           (or_introl eq_refl) ltac:(vm_compute; reflexivity)
           ltac:(intros l; discriminate)).
Defined.

Lemma project_plan_of_empty_iterable_witness :
  @project_plan_of Reference.externals
    (SampleRun.env_generate SampleRun.fenced_reply)
    SampleRun.requirements_id
    (VDict (<["objectives" := VStr ""]> SampleRun.reply_doc))
  = @project_plan_of Reference.externals
      (SampleRun.env_generate SampleRun.fenced_reply)
      SampleRun.requirements_id
      (VDict (<["objectives" := VList []]> SampleRun.reply_doc)).
Proof.
  exact (@project_plan_of_empty_iterable Reference.externals
           (SampleRun.env_generate SampleRun.fenced_reply)
           SampleRun.requirements_id SampleRun.reply_doc "objectives"
           (VStr "") ltac:(apply list_elem_of_here) (or_introl eq_refl)).
Defined.

Lemma get_project_requirements_by_id_witness :
  ProjectRequirements.id SampleRun.stored = SampleRun.requirements_id.
Proof.
  exact (proj2 (@get_project_requirements_by_id Reference.externals
                  ReferenceFacts.validators_keep_own_type
                  SampleFailures.env_no_key SampleRun.requirements_id
                  SampleRun.world_posted)
               SampleRun.stored ltac:(reflexivity)).
Defined.

Lemma empty_budget_is_unspecified_witness :
  planning_prompt (SampleFailures.with_budget (Some ""))
  = planning_prompt (SampleFailures.with_budget None).
Proof.
  exact (proj1 (empty_budget_is_unspecified
                  (SampleFailures.with_budget (Some ""))
                  (SampleFailures.with_budget None)
                  eq_refl eq_refl eq_refl eq_refl eq_refl eq_refl eq_refl
                  eq_refl eq_refl)).
Defined.


Lemma stored_counts_witness :
  length (project_requirements
            (@run Reference.externals SampleFailures.post_then_generate
               empty_world))
  = (length (project_requirements empty_world)
     + count_requests posts_requirements SampleFailures.post_then_generate)%nat.
Proof.
  exact (proj1 (@stored_counts Reference.externals
                  ReferenceFacts.validators_keep_own_type
                  SampleFailures.post_then_generate empty_world)).
Defined.

Lemma reachable_requirements_are_valid_witness :
  status_code_of
    (@get_project_requirements Reference.externals SampleFailures.env_no_key
       SampleRun.requirements_id
       (@run Reference.externals SampleFailures.post_then_generate
          empty_world)) = 200
  \/ status_code_of
       (@get_project_requirements Reference.externals
          SampleFailures.env_no_key SampleRun.requirements_id
          (@run Reference.externals SampleFailures.post_then_generate
             empty_world)) = 404.
Proof.
  exact (proj1 (proj2 (@reachable_requirements_are_valid
                         Reference.externals
                         ReferenceFacts.validators_keep_own_type
                         SampleFailures.post_then_generate
                         SampleFailures.env_no_key
                         SampleRun.requirements_id))).
Defined.

Lemma stored_documents_are_found_by_id_witness :
  NoDup (id_of
           <$> project_plans
                 (@run Reference.externals SampleFailures.post_then_generate
                    empty_world)).
Proof.
  exact (proj1 (proj2 (@stored_documents_are_found_by_id Reference.externals
                         SampleFailures.post_then_generate
                         ltac:(apply (bool_decide_unpack _); vm_compute;
                               exact I)))).
Defined.
